(** * bdpy.dl.torch.torch: activation capture and image dataset

    A shallow embedding of [bdpy/dl/torch/torch.py]: the hook handle
    [FeatureExtractorHandle], the extractor [FeatureExtractor] and the
    dataset [ImageDataset], together with the parts of numpy, Pillow,
    torch and os.path the three classes call.

    Conventions.
    - Python exceptions are values of [exn]; code that can raise, or that
      reads and writes an object, lives in the monad [M S] (state [S],
      result [Ok] or [Raise]).
    - float64 values are Rocq's primitive binary64 floats, so [/], [*] and
      [-] below are the IEEE operations numpy performs.
    - uint8 samples are [Byte.byte].
    - An n-dimensional array is its shape and its item function. *)

From Stdlib Require Import ZArith Floats Ascii.
From stdpp Require Import gmap strings list fin_maps.

#[local] Set Warnings "-clear-no-such-hyp".

Local Open Scope Z_scope.

(** ** Exceptions and the state monad *)

Inductive exn : Type :=
| IndexError
| KeyError
| ValueError
| TypeError
| OSError        (* Image.open on a missing or undecodable file *)
| RuntimeError.  (* a failure inside the network's forward pass *)

Inductive Result (A : Type) : Type :=
| Ok (a : A)
| Raise (e : exn).
Arguments Ok {A} a.
Arguments Raise {A} e.

Definition M (S A : Type) : Type := S -> Result A * S.

Definition ret {S A} (a : A) : M S A := fun s => (Ok a, s).
Definition raise {S A} (e : exn) : M S A := fun s => (Raise e, s).
Definition bind {S A B} (m : M S A) (k : A -> M S B) : M S B :=
  fun s => match m s with
           | (Ok a, s') => k a s'
           | (Raise e, s') => (Raise e, s')
           end.
Definition get {S} : M S S := fun s => (Ok s, s).
Definition modify {S} (f : S -> S) : M S unit := fun s => (Ok tt, f s).
Definition lift {S A} (r : Result A) : M S A := fun s => (r, s).

Declare Scope py_scope.
Delimit Scope py_scope with py.
Notation "x <- m ;; k" := (bind m (fun x => k))
  (at level 100, m at next level, right associativity) : py_scope.
Notation "m ;;; k" := (bind m (fun _ => k))
  (at level 100, right associativity) : py_scope.

(** The pure fragment: a computation that only raises. *)
Definition rbind {A B} (r : Result A) (k : A -> Result B) : Result B :=
  match r with Ok a => k a | Raise e => Raise e end.
Notation "x <-- r ;; k" := (rbind r (fun x => k))
  (at level 100, r at next level, right associativity) : py_scope.

Definition from_option {A} (e : exn) (o : option A) : Result A :=
  match o with Some a => Ok a | None => Raise e end.

(** [l[i]] on a Python list: a negative index counts from the end, an
    index out of range raises IndexError. *)
Definition py_index {A} (l : list A) (i : Z) : Result A :=
  let n := Z.of_nat (length l) in
  if (0 <=? i) && (i <? n) then from_option IndexError (l !! Z.to_nat i)
  else if (- n <=? i) && (i <? 0) then from_option IndexError (l !! Z.to_nat (i + n))
  else Raise IndexError.

(** ** Floating point *)

Definition of_uint8 (b : Byte.byte) : float :=
  PrimFloat.of_uint63 (Uint63.of_Z (Z.of_N (Byte.to_N b))).

(** Python compares an [int] with a [float] exactly: [n > f]. *)
Definition int_gt_float (n : Z) (f : float) : bool :=
  match Prim2SF f with
  | S754_nan => false
  | S754_infinity s => s
  | S754_zero _ => 0 <? n
  | S754_finite s m e =>
      let v := if s then Z.neg m else Z.pos m in
      if 0 <=? e then v * 2 ^ e <? n else v <? n * 2 ^ (- e)
  end.

(** Rounding a binary64 value to binary32 (what [torch.Tensor(ndarray)]
    does to every element of a float64 array). *)
Definition to_float32 (x : float) : float :=
  match Prim2SF x with
  | S754_finite s m e =>
      SF2Prim (binary_normalize 24 128 (if s then Z.neg m else Z.pos m) e s)
  | _ => x
  end.

(** ** numpy *)

Module np.

(** An ndarray: [shape] and the item at a full index. [dtype] is the
    element type [A]: [Byte.byte] for uint8, [float] for float64. *)
Record ndarray (A : Type) : Type := mk {
  shape : list nat;
  item : list nat -> A
}.
Arguments mk {A} shape item.
Arguments shape {A} _.
Arguments item {A} _ _.

Definition ndim {A} (a : ndarray A) : nat := length (shape a).

(** [a.size]: the number of elements. *)
Definition size {A} (a : ndarray A) : Z :=
  Z.of_nat (foldr Nat.mul 1%nat (shape a)).

(** [a.itemsize] of a float64 array. *)
Definition itemsize_float64 : Z := 8.

(** The elements in row-major order (for display and for examples). *)
Fixpoint tolist_aux {A} (dims : list nat) (a : list nat -> A) : list A :=
  match dims with
  | [] => [a []]
  | d :: dims' =>
      flat_map (fun i => tolist_aux dims' (fun idx => a (i :: idx))) (seq 0 d)
  end.
Definition tolist {A} (a : ndarray A) : list A := tolist_aux (shape a) (item a).

(** [a[np.newaxis]]: a leading axis of length 1. *)
Definition newaxis {A} (a : ndarray A) : ndarray A :=
  mk (1%nat :: shape a) (fun idx => item a (tail idx)).

(** [np.stack([a, a, a], axis=2)] of a 2-d array. *)
Definition stack3_axis2 {A} (a : ndarray A) : ndarray A :=
  mk (shape a ++ [3%nat]) (fun idx => item a (take 2 idx)).

(** Position of axis [d] in the tuple [axes]. *)
Fixpoint axis_pos (d : nat) (axes : list nat) : nat :=
  match axes with
  | [] => 0%nat
  | x :: axes' => if Nat.eqb x d then 0%nat else S (axis_pos d axes')
  end.

Definition is_permutation (axes : list nat) : bool :=
  forallb (fun d => existsb (Nat.eqb d) axes) (seq 0 (length axes)).

(** [a.transpose(axes)]: axis [k] of the result is axis [axes[k]] of [a].
    numpy raises ValueError when [axes] is not a permutation of the
    axes of [a]. *)
Definition transpose {A} (axes : list nat) (a : ndarray A) : Result (ndarray A) :=
  if Nat.eqb (length axes) (ndim a) && is_permutation axes then
    Ok (mk (map (fun ax => nth ax (shape a) 0%nat) axes)
           (fun idx => item a (map (fun d => nth (axis_pos d axes) idx 0%nat)
                                   (seq 0 (length axes)))))
  else Raise ValueError.

(** Elementwise [f] (a fresh array). *)
Definition map_items {A B} (f : A -> B) (a : ndarray A) : ndarray B :=
  mk (shape a) (fun idx => f (item a idx)).

(** [a[k] -= m]: in-place subtraction on the slice at position [k] of
    the first axis; IndexError when the first axis is shorter. *)
Definition isub_slice (k : nat) (m : float) (a : ndarray float)
  : Result (ndarray float) :=
  match shape a with
  | [] => Raise IndexError
  | d :: _ =>
      if (k <? d)%nat then
        Ok (mk (shape a)
               (fun idx => if Nat.eqb (hd 0%nat idx) k
                           then PrimFloat.sub (item a idx) m
                           else item a idx))
      else Raise IndexError
  end.

End np.

(** ** os.path (POSIX) *)

Module os_path.

Definition slash : ascii := "/"%char.

(** [p[:i]] and [p[i:]] for [i = p.rfind('/') + 1]. *)
Fixpoint rsplit_slash (p : list ascii) : list ascii * list ascii :=
  match p with
  | [] => ([], [])
  | c :: r =>
      let '(h, t) := rsplit_slash r in
      match h with
      | _ :: _ => (c :: h, t)
      | [] => if Ascii.eqb c slash then ([c], t) else ([], c :: t)
      end
  end.

Fixpoint lstrip_slash (p : list ascii) : list ascii :=
  match p with
  | c :: r => if Ascii.eqb c slash then lstrip_slash r else p
  | [] => []
  end.

(** [p.rstrip('/')] *)
Definition rstrip_slash (p : list ascii) : list ascii :=
  reverse (lstrip_slash (reverse p)).

Definition basename (p : string) : string :=
  String.string_of_list_ascii (snd (rsplit_slash (String.list_ascii_of_string p))).

Definition dirname (p : string) : string :=
  let head := fst (rsplit_slash (String.list_ascii_of_string p)) in
  String.string_of_list_ascii
    (if forallb (Ascii.eqb slash) head then head else rstrip_slash head).

(** A path component: a string with no '/' in it. *)
Definition slash_free (s : string) : bool :=
  forallb (fun c => negb (Ascii.eqb c slash)) (String.list_ascii_of_string s).

End os_path.

(** ** Pillow *)

Module PIL.

(** The 8-bit modes: [np.asarray] of such an image is a uint8 array.
    [Image.open] also yields images of the modes 1, I, I;16 and F, whose
    arrays are boolean, 32-bit or 16-bit integer, or float32, and the
    pipeline rejects none of them; they are not represented here, so a
    statement about an [Image] is about a file of one of these seven
    modes, and says nothing of a file of another mode. *)
Inductive Mode : Type := L | P | LA | RGB | YCbCr | RGBA | CMYK.

Definition Mode_eqb (a b : Mode) : bool :=
  match a, b with
  | L, L | P, P | LA, LA | RGB, RGB | YCbCr, YCbCr | RGBA, RGBA | CMYK, CMYK => true
  | _, _ => false
  end.

Definition bands (m : Mode) : nat :=
  match m with
  | L | P => 1
  | LA => 2
  | RGB | YCbCr => 3
  | RGBA | CMYK => 4
  end.

(** A decoded image: [size] is (width, height) and [getpixel x y] has
    one sample per band. *)
Record Image : Type := mkImage {
  mode : Mode;
  size : nat * nat;
  getpixel : nat -> nat -> nat -> Byte.byte
}.

(** The resampling filters and their integer codes ([Image.NEAREST] = 0,
    [LANCZOS] = 1, [BILINEAR] = 2, [BICUBIC] = 3, [BOX] = 4,
    [HAMMING] = 5). *)
Inductive Resampling : Type :=
  NEAREST | LANCZOS | BILINEAR | BICUBIC | BOX | HAMMING.

Definition Resampling_of_code (c : Z) : option Resampling :=
  match c with
  | 0 => Some NEAREST
  | 1 => Some LANCZOS
  | 2 => Some BILINEAR
  | 3 => Some BICUBIC
  | 4 => Some BOX
  | 5 => Some HAMMING
  | _ => None
  end.

(** The pixel arithmetic of Pillow's C core, which this repository only
    calls: colour conversion of one CMYK pixel, the blend of one sample
    under a mask value, and the resampled sample at an output position. *)
Class Core : Type := {
  cmyk2rgb : (nat -> Byte.byte) -> nat -> Byte.byte;
  blend : Byte.byte -> Byte.byte -> Byte.byte -> Byte.byte;
  resample : Resampling -> Image -> nat * nat -> nat -> nat -> nat -> Byte.byte
}.

Section WithCore.
Context `{Core}.

(** [img.convert('RGB')] of a CMYK image. *)
Definition convert_RGB (img : Image) : Image :=
  mkImage RGB (size img) (fun x y => cmyk2rgb (getpixel img x y)).

(** [Image.new('RGB', size, color)] *)
Definition new_RGB (sz : nat * nat) (color : Byte.byte * Byte.byte * Byte.byte)
  : Image :=
  mkImage RGB sz (fun _ _ b => match b with
                               | O => color.1.1
                               | S O => color.1.2
                               | _ => color.2
                               end).

(** [img.split()[k]]: band [k] as an image of mode L. *)
Definition split_band (img : Image) (k : nat) : Image :=
  mkImage L (size img) (fun x y _ => getpixel img x y k).

(** [bg.paste(img, mask=mask)] with no box: the images are aligned at
    the origin and [bg] is updated in place; the value is the new [bg]. *)
Definition paste (bg img mask : Image) : Image :=
  mkImage (mode bg) (size bg)
    (fun x y b => blend (getpixel mask x y 0) (getpixel bg x y b) (getpixel img x y b)).

(** [img.resize(size, resample=code)]; [size] is (width, height). *)
Definition resize (img : Image) (sz : Z * Z) (code : Z) : Result Image :=
  match Resampling_of_code code with
  | None => Raise ValueError
  | Some filter =>
      if (Z.of_nat (size img).1 =? sz.1) && (Z.of_nat (size img).2 =? sz.2)
      then Ok img
      else if (sz.1 <=? 0) || (sz.2 <=? 0) then Raise ValueError
      else
        let sz' := (Z.to_nat sz.1, Z.to_nat sz.2) in
        Ok (mkImage (mode img) sz' (resample filter img sz'))
  end.

End WithCore.

(** [np.asarray(img)] / [np.array(img)]: (height, width) for one band,
    (height, width, bands) otherwise. *)
Definition asarray (img : Image) : np.ndarray Byte.byte :=
  np.mk (if Nat.eqb (bands (mode img)) 1
         then [(size img).2; (size img).1]
         else [(size img).2; (size img).1; bands (mode img)])
        (fun idx => getpixel img (nth 1 idx 0%nat) (nth 0 idx 0%nat) (nth 2 idx 0%nat)).

(** [Image.fromarray(a)] of a uint8 array. *)
Definition fromarray (a : np.ndarray Byte.byte) : Result Image :=
  let px := fun x y b => np.item a [y; x; b] in
  match np.shape a with
  | [h; w] => Ok (mkImage L (w, h) (fun x y _ => np.item a [y; x]))
  | [h; w; 2%nat] => Ok (mkImage LA (w, h) px)
  | [h; w; 3%nat] => Ok (mkImage RGB (w, h) px)
  | [h; w; 4%nat] => Ok (mkImage RGBA (w, h) px)
  | _ => Raise TypeError
  end.

End PIL.

(** ** torch *)

Module torch.

(** A tensor: its values, where they live, and its place in the autograd
    graph ([requires_grad]; [grad_fn] names the node that produced it). *)
Record Tensor : Type := mkTensor {
  array : np.ndarray float;
  device : string;
  requires_grad : bool;
  grad_fn : option string
}.

(** [torch.tensor(a, device=dev)]: a leaf copy of the data. *)
Definition tensor (a : np.ndarray float) (dev : string) : Tensor :=
  mkTensor a dev false None.

(** [torch.Tensor(a)]: a float32 CPU tensor. *)
Definition FloatTensor (a : np.ndarray float) : Tensor :=
  mkTensor (np.map_items to_float32 a) "cpu" false None.

(** [t.detach()]: the same values, cut off from the graph. *)
Definition detach (t : Tensor) : Tensor :=
  mkTensor (array t) (device t) false None.

(** [t.clone()]: a copy; differentiable, so it stays in the graph when
    [t] is in it. *)
Definition clone (t : Tensor) : Tensor :=
  mkTensor (array t) (device t) (requires_grad t)
           (if requires_grad t then Some "CloneBackward" else None).

(** [t.cpu()] *)
Definition cpu (t : Tensor) : Tensor :=
  if String.eqb (device t) "cpu" then t
  else mkTensor (array t) "cpu" (requires_grad t)
                (if requires_grad t then Some "ToCopyBackward" else None).

(** [t.numpy()] *)
Definition numpy (t : Tensor) : Result (np.ndarray float) :=
  if requires_grad t then Raise RuntimeError
  else if String.eqb (device t) "cpu" then Ok (array t)
  else Raise TypeError.

End torch.

(** [_tensor_t = Union[np.ndarray, torch.Tensor]] *)
Inductive tensor_t : Type :=
| NdArray (a : np.ndarray float)
| TorchTensor (t : torch.Tensor).

(** ** The network, as far as this file uses it *)

Module nn.

(** A sub-module object of the network. *)
Definition layer : Type := nat.

(** The network the extractor is given, as two parameters.
    [parse_layer_name] stands for [models._parse_layer_name(encoder, name)]
    of [bdpy/dl/torch/models.py]: the sub-module a dotted name denotes, if
    any (a name that denotes none makes construction fail; the exception
    is taken to be ValueError). [forward xt] is what one evaluation of
    [encoder.forward(xt)] does as far as hooks can see: the sub-modules
    called, in call order, each with its output, and the exception that
    ended the pass, if one did. *)
Record Module_ : Type := {
  parse_layer_name : string -> option layer;
  forward : torch.Tensor -> list (layer * torch.Tensor) * option exn
}.

End nn.

(** ** FeatureExtractorHandle and FeatureExtractor *)

(** The mutable objects a [FeatureExtractor] reaches: its handle's buffer
    and the encoder's placement and hook table (the registrations of this
    handle, in registration order; the same callable registered twice on
    a module is called twice). [forward_calls] is a ghost log of the
    inputs [encoder.forward] was called with. *)
Record World : Type := mkWorld {
  outputs : list torch.Tensor;
  encoder_device : string;
  forward_hooks : list nn.layer;
  forward_calls : list torch.Tensor
}.

Definition set_outputs (o : list torch.Tensor) (w : World) : World :=
  mkWorld o (encoder_device w) (forward_hooks w) (forward_calls w).
Definition set_encoder_device (d : string) (w : World) : World :=
  mkWorld (outputs w) d (forward_hooks w) (forward_calls w).
Definition add_forward_hook (l : nn.layer) (w : World) : World :=
  mkWorld (outputs w) (encoder_device w) (forward_hooks w ++ [l]) (forward_calls w).
Definition log_forward_call (xt : torch.Tensor) (w : World) : World :=
  mkWorld (outputs w) (encoder_device w) (forward_hooks w) (forward_calls w ++ [xt]).

Module FeatureExtractorHandle.

(** [FeatureExtractorHandle()]: a new handle has an empty buffer
    ([self.outputs = []]) and is registered nowhere yet. *)
Definition init : M World unit :=
  modify (fun w => mkWorld [] (encoder_device w) [] (forward_calls w)).

(** [__call__(module, module_in, module_out)] *)
Definition call (module_out : torch.Tensor) : M World unit :=
  modify (fun w => set_outputs (outputs w ++ [torch.clone (torch.detach module_out)]) w).

(** [clear()] *)
Definition clear : M World unit := modify (set_outputs []).

End FeatureExtractorHandle.

(** [for x in l: body x] *)
Fixpoint for_each {S A} (l : list A) (body : A -> M S unit) : M S unit :=
  match l with
  | [] => ret tt
  | x :: l' => (body x ;;; for_each l' body)%py
  end.

(** [layer_object.register_forward_hook(self._extractor)] *)
Definition register_forward_hook (l : nn.layer) : M World unit :=
  modify (add_forward_hook l).

(** A call of sub-module [l] producing [out]: every hook registered on
    [l] is called with the output, in registration order. *)
Definition module_call (l : nn.layer) (out : torch.Tensor) : M World unit :=
  (w <- get ;;
   for_each (filter (fun l' => l' = l) (forward_hooks w))
            (fun _ => FeatureExtractorHandle.call out))%py.

(** [encoder.forward(xt)] *)
Definition encoder_forward (encoder : nn.Module_) (xt : torch.Tensor) : M World unit :=
  (modify (log_forward_call xt) ;;;
   for_each (nn.forward encoder xt).1 (fun c => module_call c.1 c.2) ;;;
   match (nn.forward encoder xt).2 with
   | Some e => raise e
   | None => ret tt
   end)%py.

Module FeatureExtractor.

Record t : Type := mk {
  _encoder : nn.Module_;
  __layers : list string;
  __layer_map : option (gmap string string);
  __detach : bool;
  __device : string
}.

(** The loop of [__init__]: resolve each layer and hook it. *)
Definition register_layer (self : t) (layer : string) : M World unit :=
  (layer <- lift (match __layer_map self with
                  | Some map => from_option KeyError (map !! layer)
                  | None => Ok layer
                  end) ;;
   layer_object <- lift (from_option ValueError
                           (nn.parse_layer_name (_encoder self) layer)) ;;
   register_forward_hook layer_object)%py.

Definition init (encoder : nn.Module_) (layers : list string)
    (layer_mapping : option (gmap string string))
    (device : string) (detach : bool) : M World t :=
  let self := mk encoder layers layer_mapping detach device in
  (FeatureExtractorHandle.init ;;;
   modify (set_encoder_device device) ;;;
   for_each layers (register_layer self) ;;;
   ret self)%py.

(** [{layer: outputs[i] for i, layer in enumerate(layers)}] *)
Fixpoint features_of (outs : list torch.Tensor) (i : nat) (layers : list string)
    (acc : gmap string torch.Tensor) : Result (gmap string torch.Tensor) :=
  match layers with
  | [] => Ok acc
  | layer :: layers' =>
      (v <-- from_option IndexError (outs !! i) ;;
       features_of outs (S i) layers' (<[layer := v]> acc))%py
  end.

(** [for x in l: ...] collecting results, stopping at the first raise. *)
Fixpoint map_result {A B} (f : A -> Result B) (l : list A) : Result (list B) :=
  match l with
  | [] => Ok []
  | a :: l' => (b <-- f a ;; bs <-- map_result f l' ;; Ok (b :: bs))%py
  end.

(** [{k: f(v) for k, v in d.items()}] *)
Definition dict_map {A B} (f : A -> Result B) (d : gmap string A)
  : Result (gmap string B) :=
  (kvs <-- map_result (fun kv => (b <-- f kv.2 ;; Ok (kv.1, b))%py) (map_to_list d) ;;
   Ok (list_to_map kvs))%py.

(** [v.cpu().detach().numpy()] *)
Definition to_numpy (v : torch.Tensor) : Result tensor_t :=
  (a <-- torch.numpy (torch.detach (torch.cpu v)) ;; Ok (NdArray a))%py.

Definition run (self : t) (x : tensor_t) : M World (gmap string tensor_t) :=
  (FeatureExtractorHandle.clear ;;;
   (* if not isinstance(x, torch.Tensor): ... else: xt = x *)
   let xt := match x with
             | NdArray a => torch.tensor (np.newaxis a) (__device self)
             | TorchTensor x' => x'
             end in
   encoder_forward (_encoder self) xt ;;;
   w <- get ;;
   features <- lift (features_of (outputs w) 0 (__layers self) ∅) ;;
   if __detach self
   then lift (dict_map to_numpy features)
   else ret (TorchTensor <$> features))%py.

(** [__call__] *)
Definition call (self : t) (x : tensor_t) : M World (gmap string tensor_t) :=
  run self x.

End FeatureExtractor.

(** ** ImageDataset *)

Module ImageDataset.

(** [transform] is a callable the caller supplies. It is handed an array
    object and may change it in place, so a call is described by its
    outcome (the tensor it returns, or the exception) together with the
    contents of the argument array when the call ends; a callable that
    leaves its argument alone gives the array back as it got it. *)
Record t : Type := mk {
  transform : option (np.ndarray float -> Result torch.Tensor * np.ndarray float);
  __shape : string;
  __resize : option (Z * Z);
  __scale : float;
  __rgb_mean : option (list float);
  __data : gmap Z (np.ndarray float);
  data_path : list string;
  labels : list string;
  n_sample : nat
}.

(** [s2d = {'h': 0, 'w': 1, 'c': 2}] and [s2d[c]] *)
Definition s2d (c : ascii) : Result nat :=
  if Ascii.eqb c "h" then Ok 0%nat
  else if Ascii.eqb c "w" then Ok 1%nat
  else if Ascii.eqb c "c" then Ok 2%nat
  else Raise KeyError.

(** [s[i]] on a str *)
Definition str_index (s : string) (i : nat) : Result ascii :=
  from_option IndexError (String.get i s).

(** The loop state of [__init__]. *)
Record loop_state : Type := mkLoop {
  ls_data : gmap Z (np.ndarray float);
  ls_preload_size : Z;
  ls_image_labels : list string;
  ls_preload : bool
}.

Section WithFiles.
Context `{PIL.Core}.
(** [Image.open]: the decoded image behind a path, if there is one. *)
Variable Image_open : string -> option PIL.Image.

(** [__load_image] *)
Definition load_image (self : t) (fpath : string) : Result (np.ndarray float) :=
  (img <-- from_option OSError (Image_open fpath) ;;
   (* CMYK, RGBA --> RGB *)
   let img := if PIL.Mode_eqb (PIL.mode img) PIL.CMYK
              then PIL.convert_RGB img else img in
   let img := if PIL.Mode_eqb (PIL.mode img) PIL.RGBA
              then let bg := PIL.new_RGB (PIL.size img) (Byte.xff, Byte.xff, Byte.xff) in
                   PIL.paste bg img (PIL.split_band img 3)
              else img in
   let data := PIL.asarray img in
   (* Monotone to RGB *)
   let data := if Nat.eqb (np.ndim data) 2 then np.stack3_axis2 data else data in
   (* Resize the image *)
   data <-- match __resize self with
            | Some sz =>
                (im <-- PIL.fromarray data ;;
                 im <-- PIL.resize im sz 2 ;;
                 Ok (PIL.asarray im))
            | None => Ok data
            end ;;
   (* Reshape *)
   c0 <-- str_index (__shape self) 0 ;;
   a0 <-- s2d c0 ;;
   c1 <-- str_index (__shape self) 1 ;;
   a1 <-- s2d c1 ;;
   c2 <-- str_index (__shape self) 2 ;;
   a2 <-- s2d c2 ;;
   data <-- np.transpose [a0; a1; a2] data ;;
   (* Scaling to [0, scale] *)
   let data := np.map_items (fun v => (of_uint8 v / 255) * __scale self)%float data in
   (* Centering *)
   match __rgb_mean self with
   | Some rgb_mean =>
       (m0 <-- py_index rgb_mean 0 ;;
        data <-- np.isub_slice 0 m0 data ;;
        m1 <-- py_index rgb_mean 1 ;;
        data <-- np.isub_slice 1 m1 data ;;
        m2 <-- py_index rgb_mean 2 ;;
        data <-- np.isub_slice 2 m2 data ;;
        Ok data)
   | None => Ok data
   end)%py.

(** The body of [for i, imf in enumerate(images)] in [__init__]. *)
Fixpoint init_loop (self : t) (label_dirname : bool) (preload_limit : float)
    (i : Z) (images : list string) (st : loop_state) : Result loop_state :=
  match images with
  | [] => Ok st
  | imf :: images' =>
      let image_labels :=
        ls_image_labels st ++
          [if label_dirname
           then os_path.basename (os_path.dirname imf)
           else os_path.basename imf] in
      if ls_preload st then
        (data <-- load_image self imf ;;
         let data_size := np.size data * np.itemsize_float64 in
         if int_gt_float (ls_preload_size st + data_size)
                         (preload_limit * 1073741824)%float
         then init_loop self label_dirname preload_limit (i + 1) images'
                (mkLoop (ls_data st) (ls_preload_size st) image_labels false)
         else init_loop self label_dirname preload_limit (i + 1) images'
                (mkLoop (<[i := data]> (ls_data st))
                        (ls_preload_size st + data_size) image_labels true))%py
      else init_loop self label_dirname preload_limit (i + 1) images'
             (mkLoop (ls_data st) (ls_preload_size st) image_labels false)
  end.

(** [__init__]. While the loop runs, [self] has its transform and the
    four pipeline settings; the cache, paths, labels and length are
    assigned from the loop's result. *)
Definition init (images : list string) (labels : option (list string))
    (label_dirname : bool) (resize : option (Z * Z)) (shape : string)
    (transform : option (np.ndarray float -> Result torch.Tensor * np.ndarray float))
    (scale : float) (rgb_mean : option (list float))
    (preload : bool) (preload_limit : float) : Result t :=
  let self := mk transform shape resize scale rgb_mean ∅ [] [] 0 in
  (st <-- init_loop self label_dirname preload_limit 0 images
            (mkLoop ∅ 0 [] preload) ;;
   Ok (mk transform shape resize scale rgb_mean
          (ls_data st) images
          (match labels with Some l => l | None => ls_image_labels st end)
          (length images)))%py.

(** [__len__] *)
Definition len (self : t) : nat := n_sample self.

(** [self.__data[idx]] is now [data]: the cached array object after
    something changed it in place. *)
Definition store (idx : Z) (data : np.ndarray float) (self : t) : t :=
  mk (transform self) (__shape self) (__resize self) (__scale self) (__rgb_mean self)
     (<[idx := data]> (__data self)) (data_path self) (labels self) (n_sample self).

(** [__getitem__]. [data] is the cached array object itself when [idx]
    is in the cache ([true]), and a fresh array otherwise ([false]); the
    transform is called on that object, so what it does to a cached array
    in place stays in the cache. [torch.Tensor(data)] copies. *)
Definition getitem (idx : Z) : M t (torch.Tensor * string) :=
  (self <- get ;;
   data <- match __data self !! idx with
           | Some data => ret (data, true)
           | None =>
               (fpath <- lift (py_index (data_path self) idx) ;;
                data <- lift (load_image self fpath) ;;
                ret (data, false))
           end ;;
   data <- match transform self with
           | Some f =>
               ((if data.2 then modify (store idx (f data.1).2) else ret tt) ;;;
                lift (f data.1).1)
           | None => ret (torch.FloatTensor data.1)
           end ;;
   label <- lift (py_index (labels self) idx) ;;
   ret (data, label))%py.

(** *** Views of the code above used in the statements *)

(** The first half of [__load_image]: the uint8 array of shape
    (height, width, channels) that reaches the reshape step. *)
Definition decoded (self : t) (fpath : string) : Result (np.ndarray Byte.byte) :=
  (img <-- from_option OSError (Image_open fpath) ;;
   let img := if PIL.Mode_eqb (PIL.mode img) PIL.CMYK
              then PIL.convert_RGB img else img in
   let img := if PIL.Mode_eqb (PIL.mode img) PIL.RGBA
              then let bg := PIL.new_RGB (PIL.size img) (Byte.xff, Byte.xff, Byte.xff) in
                   PIL.paste bg img (PIL.split_band img 3)
              else img in
   let data := PIL.asarray img in
   let data := if Nat.eqb (np.ndim data) 2 then np.stack3_axis2 data else data in
   match __resize self with
   | Some sz =>
       (im <-- PIL.fromarray data ;;
        im <-- PIL.resize im sz 2 ;;
        Ok (PIL.asarray im))
   | None => Ok data
   end)%py.

(** The second half: reshape, scale, centre. *)
Definition reshape_scale_center (self : t) (data : np.ndarray Byte.byte)
  : Result (np.ndarray float) :=
  (c0 <-- str_index (__shape self) 0 ;;
   a0 <-- s2d c0 ;;
   c1 <-- str_index (__shape self) 1 ;;
   a1 <-- s2d c1 ;;
   c2 <-- str_index (__shape self) 2 ;;
   a2 <-- s2d c2 ;;
   data <-- np.transpose [a0; a1; a2] data ;;
   let data := np.map_items (fun v => (of_uint8 v / 255) * __scale self)%float data in
   match __rgb_mean self with
   | Some rgb_mean =>
       (m0 <-- py_index rgb_mean 0 ;;
        data <-- np.isub_slice 0 m0 data ;;
        m1 <-- py_index rgb_mean 1 ;;
        data <-- np.isub_slice 1 m1 data ;;
        m2 <-- py_index rgb_mean 2 ;;
        data <-- np.isub_slice 2 m2 data ;;
        Ok data)
   | None => Ok data
   end)%py.

(** What [__getitem__] makes of the array it obtained: the outcome of
    the transform, or the tensor wrapping. *)
Definition finish (self : t) (data : np.ndarray float) : Result torch.Tensor :=
  match transform self with
  | Some f => (f data).1
  | None => Ok (torch.FloatTensor data)
  end.

(** The contents of that array when [__getitem__] is done with it. *)
Definition left_in_place (self : t) (data : np.ndarray float) : np.ndarray float :=
  match transform self with
  | Some f => (f data).2
  | None => data
  end.

(** The object after an access to [idx]: the cached array of [idx], if
    there is one and a transform is configured, holds what the transform
    left in it. *)
Definition after_access (self : t) (idx : Z) : t :=
  match __data self !! idx, transform self with
  | Some data, Some f => store idx (f data).2 self
  | _, _ => self
  end.

(** [__getitem__] on an index that is not in the cache. *)
Definition on_demand (self : t) (idx : Z) : Result (torch.Tensor * string) :=
  (fpath <-- py_index (data_path self) idx ;;
   data <-- load_image self fpath ;;
   data <-- finish self data ;;
   label <-- py_index (labels self) idx ;;
   Ok (data, label))%py.

End WithFiles.

(** [data.size * data.itemsize] of a cached array, and the bytes the
    cache holds. *)
Definition nbytes (data : np.ndarray float) : Z :=
  np.size data * np.itemsize_float64.

Definition cache_bytes (cache : gmap Z (np.ndarray float)) : Z :=
  map_fold (fun _ data acc => nbytes data + acc) 0 cache.

(** The bytes of a list of arrays. *)
Definition total_bytes (arrays : list (np.ndarray float)) : Z :=
  foldr (fun data acc => nbytes data + acc) 0 arrays.

(** The label [__init__] derives from a path. *)
Definition derived_label (label_dirname : bool) (imf : string) : string :=
  if label_dirname
  then os_path.basename (os_path.dirname imf)
  else os_path.basename imf.

(** [self] with another [resize]. *)
Definition with_resize (resize : option (Z * Z)) (self : t) : t :=
  mk (transform self) (__shape self) resize (__scale self) (__rgb_mean self)
     (__data self) (data_path self) (labels self) (n_sample self).

(** [self] with another [rgb_mean]. *)
Definition with_rgb_mean (rgb_mean : option (list float)) (self : t) : t :=
  mk (transform self) (__shape self) (__resize self) (__scale self) rgb_mean
     (__data self) (data_path self) (labels self) (n_sample self).

(** The centring block of [__load_image]: [data[k] -= rgb_mean[k]] for
    k = 0, 1, 2. *)
Definition center (rgb_mean : list float) (data : np.ndarray float)
  : Result (np.ndarray float) :=
  (m0 <-- py_index rgb_mean 0 ;;
   data <-- np.isub_slice 0 m0 data ;;
   m1 <-- py_index rgb_mean 1 ;;
   data <-- np.isub_slice 1 m1 data ;;
   m2 <-- py_index rgb_mean 2 ;;
   data <-- np.isub_slice 2 m2 data ;;
   Ok data)%py.

(** Of three values given in the order (h, w, c), the one a letter of the
    shape string names. *)
Definition pick (hwc : list nat) (letter : ascii) : nat :=
  match s2d letter with
  | Ok axis => nth axis hwc 0%nat
  | Raise _ => 0%nat
  end.

(** The letters [__load_image] reads from the shape string. *)
Definition first3 (shape : string) : list ascii :=
  take 3 (String.list_ascii_of_string shape).

(** The shape strings that name each axis once. *)
Definition axis_orders : list string :=
  ["hwc"; "hcw"; "whc"; "wch"; "chw"; "cwh"].

End ImageDataset.

(** ** What a forward pass leaves in the buffer *)

(** The hook outputs one pass appends: for every sub-module call of the
    trace, one detached copy per registration of the handle on it. *)
Definition captured (hooks : list nn.layer) (trace : list (nn.layer * torch.Tensor))
  : list torch.Tensor :=
  flat_map (fun c => map (fun _ => torch.clone (torch.detach c.2))
                         (filter (fun l' => l' = c.1) hooks))
           trace.

(** The input [run] hands to [encoder.forward]. *)
Definition forward_input (self : FeatureExtractor.t) (x : tensor_t) : torch.Tensor :=
  match x with
  | TorchTensor x' => x'
  | NdArray a => torch.tensor (np.newaxis a) (FeatureExtractor.__device self)
  end.

(** The value [run] stores for a buffered output. *)
Definition returned_value (self : FeatureExtractor.t) (v : torch.Tensor) : tensor_t :=
  if FeatureExtractor.__detach self then NdArray (torch.array v) else TorchTensor v.

(** The sub-module [__init__] hooks for a requested name: the name goes
    through [layer_map] when one is given, then through
    [_parse_layer_name]. *)
Definition resolve (self : FeatureExtractor.t) (layer : string) : Result nn.layer :=
  (layer <-- match FeatureExtractor.__layer_map self with
             | Some map => from_option KeyError (map !! layer)
             | None => Ok layer
             end ;;
   from_option ValueError
     (nn.parse_layer_name (FeatureExtractor._encoder self) layer))%py.

(** ** Sample objects for the examples *)

Module Samples.

Definition full (shape : list nat) (v : float) : np.ndarray float :=
  np.mk shape (fun _ => v).

(** A network with two hookable sub-modules, called in the order 0, 1;
    their outputs are part of the autograd graph and live where the input
    lives. *)
Definition out0 (xt : torch.Tensor) : torch.Tensor :=
  torch.mkTensor (full [1; 2]%nat 0.5%float) (torch.device xt) true (Some "ReluBackward").
Definition out1 (xt : torch.Tensor) : torch.Tensor :=
  torch.mkTensor (full [1; 3]%nat 0.25%float) (torch.device xt) true (Some "AddmmBackward").

Definition net : nn.Module_ := {|
  nn.parse_layer_name := fun name =>
    if String.eqb name "features.0" then Some 0%nat
    else if String.eqb name "classifier" then Some 1%nat
    else None;
  nn.forward := fun xt => ([(0%nat, out0 xt); (1%nat, out1 xt)], None)
|}.

Definition layer_mapping : gmap string string :=
  <["a" := "features.0"]> (<["b" := "classifier"]> ∅).

(** A world with a stale buffer entry and no hooks yet. *)
Definition world0 : World :=
  mkWorld [torch.tensor (full [7]%nat 1%float) "cpu"] "cpu" [] [].

Definition x_array : tensor_t := NdArray (full [3; 2; 2]%nat 0.5%float).
Definition x_tensor : tensor_t :=
  TorchTensor (torch.mkTensor (full [4; 3; 2; 2]%nat 0.5%float) "cuda:0" true None).

(** [FeatureExtractor(net, layers, layer_mapping, device, detach)] started
    in [world0]: the object and the world it leaves. *)
Definition build (layers : list string) (device : string) (detach : bool)
  : Result FeatureExtractor.t * World :=
  FeatureExtractor.init net layers (Some layer_mapping) device detach world0.

Definition after_build (layers : list string) (device : string) (detach : bool) : World :=
  (build layers device detach).2.

Definition extractor (layers : list string) (device : string) (detach : bool)
  : FeatureExtractor.t :=
  FeatureExtractor.mk net layers (Some layer_mapping) detach device.

(** The same network when its second sub-module is skipped, and when
    the pass fails after the first sub-module. *)
Definition net_skipping : nn.Module_ := {|
  nn.parse_layer_name := nn.parse_layer_name net;
  nn.forward := fun xt => ([(0%nat, out0 xt)], None)
|}.

Definition net_failing : nn.Module_ := {|
  nn.parse_layer_name := nn.parse_layer_name net;
  nn.forward := fun xt => ([(0%nat, out0 xt)], Some RuntimeError)
|}.

(** *** Images *)

Definition Z_of_byte (b : Byte.byte) : Z := Z.of_N (Byte.to_N b).
Definition byte_of_Z (z : Z) : Byte.byte :=
  default Byte.x00 (Byte.of_N (Z.to_N z)).

(** A stand-in for Pillow's pixel arithmetic, enough to run the code on
    examples: subtractive CMYK conversion, a rounded linear blend, and
    nearest-neighbour sampling for every filter. The theorems below hold
    for every [PIL.Core]; this one only instantiates them. *)
Definition core : PIL.Core := {|
  PIL.cmyk2rgb := fun px b =>
    byte_of_Z (Z.max 0 (255 - Z_of_byte (px b) - Z_of_byte (px 3%nat)));
  PIL.blend := fun mask dst src =>
    byte_of_Z ((Z_of_byte src * Z_of_byte mask
                + Z_of_byte dst * (255 - Z_of_byte mask) + 127) / 255);
  PIL.resample := fun _ img sz x y b =>
    PIL.getpixel img (x * (PIL.size img).1 / sz.1)%nat (y * (PIL.size img).2 / sz.2)%nat b
|}.

(** A 2x1 RGB image: pixels (255, 0, 51) and (0, 102, 204). *)
Definition tabby : PIL.Image :=
  PIL.mkImage PIL.RGB (2, 1)%nat
    (fun x _ b => match x, b with
                  | 0, 0 => Byte.xff | 0, 1 => Byte.x00 | 0, _ => Byte.x33
                  | _, 0 => Byte.x00 | _, 1 => Byte.x66 | _, _ => Byte.xcc
                  end%nat).

(** A 1x1 grey image and a 1x1 fully transparent RGBA image. *)
Definition pug : PIL.Image := PIL.mkImage PIL.L (1, 1)%nat (fun _ _ _ => Byte.x80).
Definition ghost : PIL.Image :=
  PIL.mkImage PIL.RGBA (1, 1)%nat
    (fun _ _ b => match b with 3%nat => Byte.x00 | _ => Byte.x0a end).

Definition Image_open (fpath : string) : option PIL.Image :=
  if String.eqb fpath "/data/cats/tabby.png" then Some tabby
  else if String.eqb fpath "/data/dogs/pug.png" then Some pug
  else if String.eqb fpath "/data/ghost.png" then Some ghost
  else None.

Definition images : list string :=
  ["/data/cats/tabby.png"; "/data/dogs/pug.png"; "/data/ghost.png"].

(** A dataset object with the given pipeline settings and nothing
    cached. *)
Definition dataset (shape : string) (resize : option (Z * Z)) (scale : float)
    (rgb_mean : option (list float)) : ImageDataset.t :=
  ImageDataset.mk None shape resize scale rgb_mean ∅ images
    ["tabby.png"; "pug.png"; "ghost.png"] 3.

(** The same files with the large one in the middle, and a budget of 50
    bytes: the first array has 24 bytes, the second 48, the third 24. *)
Definition images_large_in_middle : list string :=
  ["/data/dogs/pug.png"; "/data/cats/tabby.png"; "/data/ghost.png"].

Definition budget_50_bytes : float := (50 / 1073741824)%float.

Definition preloaded : ImageDataset.t :=
  match ImageDataset.init (H:=core) Image_open images_large_in_middle None true
          None "chw" None 1 None true budget_50_bytes with
  | Ok ds => ds
  | Raise _ => dataset "chw" None 1 None
  end.

(** The sample files preloaded without a limit, and a dataset with one
    label for three paths. *)
Definition preloaded_all : ImageDataset.t :=
  match ImageDataset.init (H:=core) Image_open images None false
          None "hwc" None 1 None true infinity with
  | Ok ds => ds
  | Raise _ => dataset "hwc" None 1 None
  end.

Definition one_label : ImageDataset.t :=
  match ImageDataset.init (H:=core) Image_open images (Some ["tabby"]) false
          None "hwc" None 1 None false infinity with
  | Ok ds => ds
  | Raise _ => dataset "hwc" None 1 None
  end.

(** A transform that works in place, [data -= 0.5] and then
    [torch.Tensor(data)], and the sample files preloaded under it. *)
Definition shift_in_place (data : np.ndarray float)
  : Result torch.Tensor * np.ndarray float :=
  let data' := np.map_items (fun v => (v - 0.5)%float) data in
  (Ok (torch.FloatTensor data'), data').

Definition preloaded_shifting : ImageDataset.t :=
  match ImageDataset.init (H:=core) Image_open images None false
          None "hwc" (Some shift_in_place) 1 None true infinity with
  | Ok ds => ds
  | Raise _ => dataset "hwc" None 1 None
  end.

(** One value of a cached array, and whether it is a given number. *)
Definition cached_value (self : ImageDataset.t) (idx : Z) (pos : list nat)
  : option float :=
  (fun data => np.item data pos) <$> ImageDataset.__data self !! idx.

Definition cached_value_is (self : ImageDataset.t) (idx : Z) (pos : list nat)
    (v : float) : bool :=
  match cached_value self idx pos with
  | Some u => (u =? v)%float
  | None => false
  end.

(** The two-layer request on the sample network, without [detach]: the
    mapping [run] returns. *)
Definition features_ab : gmap string tensor_t :=
  match (FeatureExtractor.run (extractor ["a"; "b"] "cuda:0" false) x_tensor
           (after_build ["a"; "b"] "cuda:0" false)).1 with
  | Ok features => features
  | Raise _ => ∅
  end.

(** What the pipeline makes of a path under given settings. *)
Definition loaded (self : ImageDataset.t) (fpath : string) : np.ndarray float :=
  match ImageDataset.load_image (H:=core) Image_open self fpath with
  | Ok data => data
  | Raise _ => full [] 0%float
  end.

Definition decoded (self : ImageDataset.t) (fpath : string) : np.ndarray Byte.byte :=
  match ImageDataset.decoded (H:=core) Image_open self fpath with
  | Ok data => data
  | Raise _ => np.mk [] (fun _ => Byte.x00)
  end.

End Samples.

Section FeatureExtractorFacts.

Lemma for_each_handle_call {A} (l : list A) (out : torch.Tensor) (w : World) :
  for_each l (fun _ => FeatureExtractorHandle.call out) w
  = (Ok tt, set_outputs (outputs w ++ map (fun _ => torch.clone (torch.detach out)) l) w).
Proof.
  revert w. induction l as [|a l IH]; intros w; simpl.
  - rewrite app_nil_r. by destruct w.
  - unfold bind. simpl. rewrite IH. simpl.
    by rewrite <- app_assoc.
Qed.

Lemma module_call_spec (l : nn.layer) (out : torch.Tensor) (w : World) :
  module_call l out w
  = (Ok tt, set_outputs (outputs w ++ captured (forward_hooks w) [(l, out)]) w).
Proof.
  unfold module_call, bind, get. rewrite for_each_handle_call.
  unfold captured. simpl. by rewrite app_nil_r.
Qed.

Lemma captured_cons hooks c trace :
  captured hooks (c :: trace) = captured hooks [c] ++ captured hooks trace.
Proof. unfold captured. simpl. by rewrite app_nil_r. Qed.

Lemma for_each_module_call (trace : list (nn.layer * torch.Tensor)) (w : World) :
  for_each trace (fun c => module_call c.1 c.2) w
  = (Ok tt, set_outputs (outputs w ++ captured (forward_hooks w) trace) w).
Proof.
  revert w. induction trace as [|[l out] trace IH]; intros w; simpl.
  - unfold captured. simpl. rewrite app_nil_r. by destruct w.
  - unfold bind. rewrite module_call_spec, IH. simpl.
    rewrite app_nil_r. unfold set_outputs. simpl. by rewrite <- app_assoc.
Qed.

(** One call of [encoder.forward]: the input is logged once and the
    buffer grows by what the pass captured. *)
Lemma encoder_forward_spec (encoder : nn.Module_) (xt : torch.Tensor) (w : World) :
  encoder_forward encoder xt w
  = (match (nn.forward encoder xt).2 with Some e => Raise e | None => Ok tt end,
     mkWorld (outputs w ++ captured (forward_hooks w) (nn.forward encoder xt).1)
             (encoder_device w) (forward_hooks w) (forward_calls w ++ [xt])).
Proof.
  unfold encoder_forward, bind, modify. rewrite for_each_module_call. simpl.
  by destruct (nn.forward encoder xt).2.
Qed.

Lemma to_numpy_ok (v : torch.Tensor) :
  FeatureExtractor.to_numpy v = Ok (NdArray (torch.array v)).
Proof.
  unfold FeatureExtractor.to_numpy, torch.numpy, torch.detach, torch.cpu.
  destruct (String.eqb (torch.device v) "cpu") eqn:E; simpl; by rewrite ?E.
Qed.

Lemma map_result_total {A B} (f : A -> Result B) (g : A -> B) (l : list A) :
  (forall a, f a = Ok (g a)) -> FeatureExtractor.map_result f l = Ok (g <$> l).
Proof.
  intros Hf. induction l as [|a l IH]; simpl; [done|].
  by rewrite Hf, IH.
Qed.

Lemma dict_map_total {A B} (f : A -> Result B) (g : A -> B) (d : gmap string A) :
  (forall a, f a = Ok (g a)) -> FeatureExtractor.dict_map f d = Ok (g <$> d).
Proof.
  intros Hf. unfold FeatureExtractor.dict_map.
  rewrite (map_result_total _ (prod_map id g)).
  - simpl. f_equal. by rewrite list_to_map_fmap, list_to_map_to_list.
  - intros [k a]. simpl. by rewrite Hf.
Qed.

(** The dict comprehension of [run]: it succeeds when the buffer is long
    enough, its keys are the accumulator's and the layer names, and a
    name is bound to the buffer entry at the position of its last
    occurrence. *)
Lemma features_of_spec (outs : list torch.Tensor) (layers : list string) :
  forall (i : nat) (acc : gmap string torch.Tensor),
    (i + length layers <= length outs)%nat ->
    exists features,
      FeatureExtractor.features_of outs i layers acc = Ok features
      /\ dom features = dom acc ∪ list_to_set layers
      /\ (forall j name, layers !! j = Some name ->
                         name ∉ drop (S j) layers ->
                         features !! name = outs !! (i + j)%nat)
      /\ (forall name, name ∉ layers -> features !! name = acc !! name).
Proof.
  induction layers as [|layer layers IH]; intros i acc Hlen; simpl in *.
  - exists acc. split_and!; [done | set_solver | intros j name Hj; by destruct j | done].
  - destruct (lookup_lt_is_Some_2 outs i ltac:(lia)) as [v Hv].
    rewrite Hv. simpl.
    destruct (IH (S i) (<[layer := v]> acc) ltac:(lia)) as (m & Hm & Hdom & Hpos & Hrest).
    exists m. split_and!; [done | | |].
    + rewrite Hdom, dom_insert_L. set_solver.
    + intros [|j] name Hj Hlast; simpl in *.
      * injection Hj as ->. rewrite Nat.add_0_r, Hv.
        rewrite Hrest by done. by rewrite lookup_insert_eq.
      * replace (i + S j)%nat with (S i + j)%nat by lia. by apply Hpos.
    + intros name Hname. rewrite Hrest by set_solver.
      apply lookup_insert_ne. set_solver.
Qed.

(** [run] in closed form: the world it leaves (whether or not it
    raises) and its result. *)
Lemma run_spec (self : FeatureExtractor.t) (x : tensor_t) (w : World) :
  let xt := forward_input self x in
  let trace := nn.forward (FeatureExtractor._encoder self) xt in
  let buffer := captured (forward_hooks w) trace.1 in
  FeatureExtractor.run self x w
  = (match trace.2 with
     | Some e => Raise e
     | None =>
         (features <-- FeatureExtractor.features_of buffer 0
                         (FeatureExtractor.__layers self) ∅ ;;
          if FeatureExtractor.__detach self
          then FeatureExtractor.dict_map FeatureExtractor.to_numpy features
          else Ok (TorchTensor <$> features))%py
     end,
     mkWorld buffer (encoder_device w) (forward_hooks w) (forward_calls w ++ [xt])).
Proof.
  intros xt trace buffer.
  unfold FeatureExtractor.run, bind, FeatureExtractorHandle.clear, modify.
  fold (forward_input self x). fold xt.
  rewrite encoder_forward_spec. simpl. fold trace. fold buffer.
  destruct trace.2; [done|].
  unfold get, lift. simpl.
  destruct (FeatureExtractor.features_of buffer 0 (FeatureExtractor.__layers self) ∅);
    simpl; [|done].
  by destruct (FeatureExtractor.__detach self).
Qed.

(** Every buffered output is a detached copy. *)
Lemma captured_detached hooks trace (v : torch.Tensor) :
  v ∈ captured hooks trace ->
  exists l out, (l, out) ∈ trace /\ v = torch.clone (torch.detach out).
Proof.
  unfold captured. rewrite list_elem_of_In, in_flat_map.
  intros ([l out] & Hin & Hv). apply in_map_iff in Hv as (? & <- & _).
  exists l, out. by rewrite list_elem_of_In.
Qed.

Lemma features_of_values (outs : list torch.Tensor) (layers : list string) :
  forall (i : nat) (acc features : gmap string torch.Tensor),
    FeatureExtractor.features_of outs i layers acc = Ok features ->
    forall name v, features !! name = Some v -> v ∈ outs \/ acc !! name = Some v.
Proof.
  induction layers as [|layer layers IH]; intros i acc features Hf name v Hv; simpl in Hf.
  - injection Hf as <-. by right.
  - destruct (outs !! i) as [o|] eqn:Ho; simpl in Hf; [|done].
    destruct (IH _ _ _ Hf name v Hv) as [?|Hacc]; [by left|].
    destruct (decide (layer = name)) as [->|Hne].
    + rewrite lookup_insert_eq in Hacc. injection Hacc as <-.
      left. by eapply list_elem_of_lookup_2.
    + rewrite lookup_insert_ne in Hacc by done. by right.
Qed.

End FeatureExtractorFacts.

(** ** FeatureExtractor: the code on the sample network *)

(** Construction registers one hook per requested name, in order, and
    moves the encoder; a name the mapping does not know raises. *)
Example build_registers_hooks_in_order :
  Samples.build ["a"; "b"; "a"] "cuda:0" false
  = (Ok (Samples.extractor ["a"; "b"; "a"] "cuda:0" false),
     mkWorld [] "cuda:0" [0; 1; 0]%nat [])
  /\ (Samples.build ["a"; "c"] "cpu" true).1 = Raise KeyError.
Proof. split; reflexivity. Qed.

(** ** FeatureExtractor: the claims *)

(** Whatever the outcome, a returned tensor is cut off from the autograd
    graph: the hook stored [module_out.detach().clone()]. *)
Lemma run_values_detached (self : FeatureExtractor.t) (x : tensor_t) (w w' : World)
    (features : gmap string tensor_t) (name : string) (t : torch.Tensor) :
  FeatureExtractor.run self x w = (Ok features, w') ->
  features !! name = Some (TorchTensor t) ->
  torch.requires_grad t = false /\ torch.grad_fn t = None.
Proof.
  rewrite run_spec. intros Hrun Hname.
  destruct (nn.forward _ _).2; [done|].
  injection Hrun as Hrun _.
  destruct (FeatureExtractor.features_of _ _ _ _) as [f|] eqn:Hf; [simpl in Hrun|done].
  destruct (FeatureExtractor.__detach self).
  - rewrite (dict_map_total _ (fun v => NdArray (torch.array v))) in Hrun
      by apply to_numpy_ok.
    injection Hrun as <-. rewrite lookup_fmap in Hname.
    by destruct (f !! name).
  - injection Hrun as <-. rewrite lookup_fmap in Hname.
    destruct (f !! name) as [v|] eqn:Hv; [|done].
    injection Hname as ->.
    destruct (features_of_values _ _ _ _ _ Hf _ _ Hv) as [Hin|?]; [|done].
    apply captured_detached in Hin as (l & out & _ & ->). done.
Qed.

(** C1, as amended. When the forward pass completes and fires at least
    [len(layers)] hooks, [run(x)] returns a mapping and leaves a world in
    which the buffer holds exactly the outputs captured by this pass (the
    stale entries were cleared first) and the call log has grown by one
    forward call. The keys of the mapping are exactly the requested names,
    and the value of a name is the buffered output at the position of its
    last occurrence in [layers] (position [i] for the [i]-th name when the
    names are distinct), as a host array when [detach] is set. *)
Theorem C1_run_zips_buffer_positionally
    (self : FeatureExtractor.t) (x : tensor_t) (w : World) :
  let xt := forward_input self x in
  let trace := nn.forward (FeatureExtractor._encoder self) xt in
  let buffer := captured (forward_hooks w) trace.1 in
  trace.2 = None ->
  (length (FeatureExtractor.__layers self) <= length buffer)%nat ->
  exists features,
    FeatureExtractor.run self x w
    = (Ok features,
       mkWorld buffer (encoder_device w) (forward_hooks w) (forward_calls w ++ [xt]))
    /\ dom features = list_to_set (FeatureExtractor.__layers self)
    /\ forall i name,
         FeatureExtractor.__layers self !! i = Some name ->
         name ∉ drop (S i) (FeatureExtractor.__layers self) ->
         features !! name = returned_value self <$> buffer !! i.
Proof.
  intros xt trace buffer Hdone Hlen.
  destruct (features_of_spec buffer (FeatureExtractor.__layers self) 0 ∅ Hlen)
    as (f & Hf & Hdom & Hpos & _).
  exists (returned_value self <$> f).
  rewrite run_spec. fold xt trace buffer. rewrite Hdone, Hf. simpl.
  split_and!.
  - f_equal. unfold returned_value.
    destruct (FeatureExtractor.__detach self); [|done].
    apply dict_map_total, to_numpy_ok.
  - rewrite dom_fmap_L, Hdom. set_solver.
  - intros i name Hi Hlast. by rewrite lookup_fmap, (Hpos i name Hi Hlast).
Qed.

(** A run of C1's theorem: the two-layer request on the sample network. *)
Lemma C1_run_zips_buffer_positionally_witness :
  exists features,
    FeatureExtractor.run (Samples.extractor ["a"; "b"] "cpu" true) Samples.x_array
      (Samples.after_build ["a"; "b"] "cpu" true)
    = (Ok features,
       mkWorld
         (captured [0; 1]%nat
            (nn.forward Samples.net
               (forward_input (Samples.extractor ["a"; "b"] "cpu" true) Samples.x_array)).1)
         "cpu" [0; 1]%nat
         [forward_input (Samples.extractor ["a"; "b"] "cpu" true) Samples.x_array])
    /\ dom features = list_to_set ["a"; "b"]
    /\ forall i name,
         ["a"; "b"] !! i = Some name ->
         name ∉ drop (S i) ["a"; "b"] ->
         features !! name
         = returned_value (Samples.extractor ["a"; "b"] "cpu" true)
             <$> captured [0; 1]%nat
                   (nn.forward Samples.net
                      (forward_input (Samples.extractor ["a"; "b"] "cpu" true)
                         Samples.x_array)).1 !! i.
Proof.
  apply (C1_run_zips_buffer_positionally
           (Samples.extractor ["a"; "b"] "cpu" true) Samples.x_array
           (Samples.after_build ["a"; "b"] "cpu" true)).
  - reflexivity.
  - vm_compute. lia.
Defined.

(** C1 as stated fails when a name is requested twice: with
    [layers = ['a', 'b', 'a']] the module behind 'a' carries two hooks and
    fires both before 'b' fires, and the dict keeps the last binding of
    'a', so the value returned for the first requested name is the third
    buffered output, not the first. *)
Lemma C1_counterexample_repeated_name :
  exists features w',
    FeatureExtractor.run (Samples.extractor ["a"; "b"; "a"] "cuda:0" false)
      Samples.x_tensor (Samples.after_build ["a"; "b"; "a"] "cuda:0" false)
    = (Ok features, w')
    /\ FeatureExtractor.__layers (Samples.extractor ["a"; "b"; "a"] "cuda:0" false) !! 0%nat
       = Some "a"
    /\ features !! "a" = TorchTensor <$> outputs w' !! 2%nat
    /\ features !! "a" <> TorchTensor <$> outputs w' !! 0%nat.
Proof.
  eexists. eexists. split; [rewrite run_spec; vm_compute; reflexivity|].
  split; [reflexivity|]. split; [vm_compute; reflexivity|].
  vm_compute. intros Heq. discriminate Heq.
Qed.

(** When the pass fires fewer hooks than there are requested names, the
    dict comprehension runs off the end of the buffer: [run] raises
    IndexError. *)
Lemma features_of_short (outs : list torch.Tensor) (layers : list string) :
  forall (i : nat) (acc : gmap string torch.Tensor),
    (i <= length outs < i + length layers)%nat ->
    FeatureExtractor.features_of outs i layers acc = Raise IndexError.
Proof.
  induction layers as [|layer layers IH]; intros i acc Hlen; simpl in *.
  - lia.
  - destruct (outs !! i) as [v|] eqn:Hv; simpl; [|done].
    apply lookup_lt_Some in Hv. apply IH. lia.
Qed.

(** X5. A completed pass that fires fewer hooks than there are requested
    names (a hooked sub-module was not called) makes [run] raise
    IndexError: the mismatch is not silent. *)
Lemma run_raises_on_short_buffer (self : FeatureExtractor.t) (x : tensor_t) (w : World) :
  (nn.forward (FeatureExtractor._encoder self) (forward_input self x)).2 = None ->
  (length (captured (forward_hooks w)
             (nn.forward (FeatureExtractor._encoder self) (forward_input self x)).1)
   < length (FeatureExtractor.__layers self))%nat ->
  (FeatureExtractor.run self x w).1 = Raise IndexError.
Proof.
  intros Hdone Hlen. rewrite run_spec. simpl. rewrite Hdone.
  rewrite features_of_short; [done|lia].
Qed.

(** C2, evaluated on the sample network with [detach=False]: the module
    behind 'a' produced an output that is part of the autograd graph, on
    cuda:0; the tensor [run] returns for 'a' is still on cuda:0, but it
    does not require grad and has no [grad_fn]. *)
Lemma C2_detach_false_returns_detached_copy :
  exists features w' t,
    FeatureExtractor.run (Samples.extractor ["a"; "b"] "cuda:0" false)
      Samples.x_tensor (Samples.after_build ["a"; "b"] "cuda:0" false)
    = (Ok features, w')
    /\ features !! "a" = Some (TorchTensor t)
    /\ torch.array t
       = torch.array (Samples.out0
                        (forward_input (Samples.extractor ["a"; "b"] "cuda:0" false)
                           Samples.x_tensor))
    /\ torch.requires_grad
         (Samples.out0 (forward_input (Samples.extractor ["a"; "b"] "cuda:0" false)
                          Samples.x_tensor)) = true
    /\ torch.device t = "cuda:0"
    /\ torch.requires_grad t = false
    /\ torch.grad_fn t = None.
Proof.
  eexists. eexists. eexists.
  split; [rewrite run_spec; vm_compute; reflexivity|].
  split; [vm_compute; reflexivity|].
  repeat split.
Qed.

(** C10. A tensor input reaches [encoder.forward] as it is: the one call
    [run] logs has [x] itself as its argument, whatever the device the
    extractor was configured with and whether or not the pass raises. An
    array input is the case that gets a leading axis of length 1 and is
    placed on the configured device. *)
Theorem C10_tensor_input_forwarded_unchanged
    (self : FeatureExtractor.t) (w : World) :
  (forall x : torch.Tensor,
      forward_calls (FeatureExtractor.run self (TorchTensor x) w).2
      = forward_calls w ++ [x])
  /\ (forall a : np.ndarray float,
        exists xt,
          forward_calls (FeatureExtractor.run self (NdArray a) w).2
          = forward_calls w ++ [xt]
          /\ np.shape (torch.array xt) = 1%nat :: np.shape a
          /\ torch.device xt = FeatureExtractor.__device self).
Proof.
  split.
  - intros x. by rewrite run_spec.
  - intros a. eexists. rewrite run_spec. simpl. done.
Qed.

(** ** ImageDataset: facts about the pipeline and the index access *)

Section ImageDatasetFacts.
Context `{PIL.Core}.
Variable Image_open : string -> option PIL.Image.

Import ImageDataset.

(** [__load_image] is its two halves in sequence. *)
Lemma load_image_stages (self : t) (fpath : string) :
  load_image Image_open self fpath
  = (data <-- decoded Image_open self fpath ;; reshape_scale_center self data)%py.
Proof.
  unfold load_image, decoded, reshape_scale_center.
  destruct (Image_open fpath) as [img|]; simpl; [|done].
  destruct (__resize self) as [sz|]; simpl; [|done].
  destruct (PIL.fromarray _) as [im|]; simpl; [|done].
  by destruct (PIL.resize im sz 2).
Qed.

(** The pipeline reads four settings of the object and one file. *)
Lemma load_image_depends_on (self1 self2 : t) (open1 open2 : string -> option PIL.Image)
    (fpath : string) :
  __resize self1 = __resize self2 ->
  __shape self1 = __shape self2 ->
  __scale self1 = __scale self2 ->
  __rgb_mean self1 = __rgb_mean self2 ->
  open1 fpath = open2 fpath ->
  load_image open1 self1 fpath = load_image open2 self2 fpath.
Proof.
  intros Hr Hs Hc Hm Ho. unfold load_image. by rewrite Hr, Hs, Hc, Hm, Ho.
Qed.

(** [__getitem__] in closed form: the result comes from the cache or
    from the on-demand load, and the object is left as [after_access]
    says. *)
Lemma getitem_spec (self : t) (idx : Z) :
  getitem Image_open idx self
  = (match __data self !! idx with
     | Some data =>
         (data <-- finish self data ;;
          label <-- py_index (labels self) idx ;;
          Ok (data, label))%py
     | None => on_demand Image_open self idx
     end, after_access self idx).
Proof.
  unfold getitem, on_demand, finish, after_access, bind, get, lift, ret, modify.
  destruct (__data self !! idx) as [data|]; simpl.
  - destruct (transform self) as [f|]; simpl.
    + destruct (f data) as [[tsr|e] data']; simpl; [|done].
      by destruct (py_index (labels self) idx).
    + by destruct (py_index (labels self) idx).
  - destruct (py_index (data_path self) idx) as [fpath|]; simpl; [|done].
    destruct (load_image Image_open self fpath) as [data|]; simpl; [|done].
    destruct (transform self) as [f|]; simpl.
    + destruct (f data) as [[tsr|e] data']; simpl; [|done].
      by destruct (py_index (labels self) idx).
    + by destruct (py_index (labels self) idx).
Qed.

(** An access to an index outside the cache, an access without a
    transform, and an access whose transform leaves the cached array as
    it was, leave the object as it was. *)
Lemma after_access_uncached (self : t) (idx : Z) :
  __data self !! idx = None -> after_access self idx = self.
Proof. intros Hidx. unfold after_access. by rewrite Hidx. Qed.

Lemma after_access_no_transform (self : t) (idx : Z) :
  transform self = None -> after_access self idx = self.
Proof.
  intros Hnone. unfold after_access. rewrite Hnone. by destruct (__data self !! idx).
Qed.

Lemma after_access_untouched (self : t) (idx : Z) (data : np.ndarray float) :
  __data self !! idx = Some data ->
  left_in_place self data = data ->
  after_access self idx = self.
Proof.
  intros Hidx Hsame. unfold after_access, left_in_place in *. rewrite Hidx.
  destruct (transform self) as [f|]; [|done].
  unfold store. rewrite Hsame, (insert_id _ _ _ Hidx). by destruct self.
Qed.

(** Scaling a uint8 sample by 1 after the division changes nothing. *)
Lemma scale_by_one (b : Byte.byte) :
  (of_uint8 b / 255 * 1)%float = (of_uint8 b / 255)%float.
Proof. destruct b; vm_compute; reflexivity. Qed.

(** [l[i]] for an index in range. *)
Lemma py_index_nat {A} (l : list A) (i : nat) (a : A) :
  l !! i = Some a -> py_index l (Z.of_nat i) = Ok a.
Proof.
  intros Hi. unfold py_index. pose proof (lookup_lt_Some _ _ _ Hi).
  rewrite (proj2 (Z.leb_le _ _)) by lia.
  rewrite (proj2 (Z.ltb_lt _ _)) by lia.
  simpl. by rewrite Nat2Z.id, Hi.
Qed.

(** C5. An RGB file loaded with [resize=None], [scale=1],
    [rgb_mean=None] and [shape='hwc']: the pipeline returns an array with
    the shape of the decoded pixel array, (height, width, 3), whose item
    at every index is the decoded uint8 sample at that index divided by
    255. *)
Theorem C5_rgb_hwc_is_pixels_over_255 (self : t) (fpath : string) (img : PIL.Image) :
  Image_open fpath = Some img ->
  PIL.mode img = PIL.RGB ->
  __resize self = None ->
  __scale self = 1%float ->
  __rgb_mean self = None ->
  __shape self = "hwc" ->
  exists data,
    load_image Image_open self fpath = Ok data
    /\ np.shape data = np.shape (PIL.asarray img)
    /\ np.shape data = [(PIL.size img).2; (PIL.size img).1; 3%nat]
    /\ forall y x c,
         np.item data [y; x; c]
         = (of_uint8 (np.item (PIL.asarray img) [y; x; c]) / 255)%float.
Proof.
  intros Hopen Hmode Hresize Hscale Hmean Hshape.
  unfold load_image. rewrite Hopen, Hresize, Hscale, Hmean, Hshape.
  destruct img as [mode sz px]. simpl in Hmode. subst mode. simpl.
  eexists. split; [reflexivity|]. simpl.
  split_and!; [done | done |].
  intros y x c. apply scale_by_one.
Qed.

Lemma s2d_range (c : ascii) (a : nat) :
  s2d c = Ok a -> a = 0%nat \/ a = 1%nat \/ a = 2%nat.
Proof.
  unfold s2d. repeat case_match; intros [= <-]; auto.
Qed.

(** C6. With [rgb_mean=[m0, m1, m2]] and a shape string that starts with
    'c', for a file whose decoded array has three channels and for which
    the pipeline without centring yields [scaled]: the pipeline yields an
    array of the same shape with the channel axis first, slice [k] of
    [scaled] holds the channel-[k] samples divided by 255 and multiplied
    by [scale], and slice [k] of the result is slice [k] of [scaled] minus
    [m_k] for k = 0, 1, 2. *)
Theorem C6_centering_subtracts_mean_per_channel
    (self : t) (fpath : string) (m0 m1 m2 : float) (rest : string)
    (raw : np.ndarray Byte.byte) (h w : nat) (scaled : np.ndarray float) :
  __rgb_mean self = Some [m0; m1; m2] ->
  __shape self = String "c" rest ->
  decoded Image_open self fpath = Ok raw ->
  np.shape raw = [h; w; 3%nat] ->
  load_image Image_open (with_rgb_mean None self) fpath = Ok scaled ->
  exists data,
    load_image Image_open self fpath = Ok data
    /\ np.shape data = np.shape scaled
    /\ hd 0%nat (np.shape data) = 3%nat
    /\ (forall k i j, exists y x,
          (y = i /\ x = j \/ y = j /\ x = i)
          /\ np.item scaled [k; i; j]
             = (of_uint8 (np.item raw [y; x; k]) / 255 * __scale self)%float)
    /\ (forall k i j, (k < 3)%nat ->
          np.item data [k; i; j]
          = (np.item scaled [k; i; j] - nth k [m0; m1; m2] 0)%float).
Proof.
  intros Hmean Hshape Hraw Hraw_shape Hscaled.
  rewrite load_image_stages in Hscaled |- *.
  change (decoded Image_open (with_rgb_mean None self) fpath)
    with (decoded Image_open self fpath) in Hscaled.
  rewrite Hraw in Hscaled |- *. simpl in Hscaled |- *.
  unfold reshape_scale_center in Hscaled |- *. simpl in Hscaled.
  rewrite Hshape in Hscaled |- *. rewrite Hmean.
  simpl in Hscaled |- *.
  destruct (str_index _ 1) as [c1|]; simpl in Hscaled |- *; [|done].
  destruct (s2d c1) as [a1|] eqn:Ha1; simpl in Hscaled |- *; [|done].
  destruct (str_index _ 2) as [c2|]; simpl in Hscaled |- *; [|done].
  destruct (s2d c2) as [a2|] eqn:Ha2; simpl in Hscaled |- *; [|done].
  unfold np.transpose, np.ndim in Hscaled |- *. rewrite Hraw_shape in Hscaled |- *.
  apply s2d_range in Ha1 as [->|[->| ->]]; apply s2d_range in Ha2 as [->|[->| ->]];
    simpl in Hscaled; try discriminate Hscaled;
    injection Hscaled as <-; simpl;
    (eexists; split; [reflexivity|]; simpl; split_and!; [done | done | |]).
  - intros k i j. exists i, j. split; [by left|done].
  - intros [|[|[|k]]] i j Hk; simpl; try done; lia.
  - intros k i j. exists j, i. split; [by right|done].
  - intros [|[|[|k]]] i j Hk; simpl; try done; lia.
Qed.

(** The filter [__load_image] asks for: code 2 is Pillow's BILINEAR
    (BICUBIC is 3), although the source comments the call as bicubic. *)
Lemma resize_code_is_bilinear :
  PIL.Resampling_of_code 2 = Some PIL.BILINEAR
  /\ PIL.Resampling_of_code 3 = Some PIL.BICUBIC.
Proof. done. Qed.

Lemma resize_spec (im : PIL.Image) (a b : Z) :
  0 < a -> 0 < b ->
  exists resized,
    PIL.resize im (a, b) 2 = Ok resized
    /\ PIL.size resized = (Z.to_nat a, Z.to_nat b)
    /\ PIL.mode resized = PIL.mode im.
Proof.
  intros Ha Hb. unfold PIL.resize. simpl.
  destruct (_ && _) eqn:Hsame.
  - exists im. split_and!; [done | | done].
    apply andb_true_iff in Hsame as [H1 H2].
    apply Z.eqb_eq in H1, H2. destruct (PIL.size im) as [w0 h0]. simpl in *.
    by rewrite <- H1, <- H2, !Nat2Z.id.
  - rewrite (proj2 (Z.leb_gt _ _)) by lia.
    rewrite (proj2 (Z.leb_gt _ _)) by lia. simpl.
    eexists. split_and!; done.
Qed.

(** C3, as amended. With [resize=(a, b)], both positive, every file that
    decodes goes through Pillow's [resize] with size [(a, b)] before the
    reshape and scaling steps; Pillow reads the size as (width, height),
    so the resized image is [a] wide and [b] high and its array has shape
    [(b, a, channels)]. *)
Theorem C3_resize_reads_size_as_width_height
    (self : t) (fpath : string) (img : PIL.Image) (a b : Z) :
  Image_open fpath = Some img ->
  __resize self = Some (a, b) ->
  0 < a -> 0 < b ->
  exists data im resized,
    decoded Image_open (with_resize None self) fpath = Ok data
    /\ PIL.fromarray data = Ok im
    /\ PIL.resize im (a, b) 2 = Ok resized
    /\ PIL.size resized = (Z.to_nat a, Z.to_nat b)
    /\ np.shape (PIL.asarray resized)
       = [Z.to_nat b; Z.to_nat a; PIL.bands (PIL.mode resized)]
    /\ decoded Image_open self fpath = Ok (PIL.asarray resized)
    /\ load_image Image_open self fpath
       = reshape_scale_center self (PIL.asarray resized).
Proof.
  intros Hopen Hresize Ha Hb.
  rewrite load_image_stages. unfold decoded. simpl. rewrite Hopen, Hresize. simpl.
  set (img1 := if PIL.Mode_eqb (PIL.mode img) PIL.CMYK then _ else img).
  set (img2 := if PIL.Mode_eqb (PIL.mode img1) PIL.RGBA then _ else img1).
  set (data := if Nat.eqb (np.ndim (PIL.asarray img2)) 2 then _ else _).
  assert (exists im, PIL.fromarray data = Ok im
                     /\ (PIL.mode im = PIL.RGB \/ PIL.mode im = PIL.LA))
    as (im & Him & Hmode).
  { subst data img2 img1. destruct img as [[] [w0 h0] px]; simpl;
      eexists; (split; [reflexivity|]); simpl; auto. }
  destruct (resize_spec im a b Ha Hb) as (resized & Hres & Hsize & Hm).
  exists data, im, resized. rewrite Him. simpl. rewrite Hres. simpl.
  split_and!; try done.
  unfold PIL.asarray. rewrite Hsize, Hm. simpl.
  by destruct Hmode as [-> | ->].
Qed.

(** C7. Reading an index that is not in the cache twice gives the same
    result both times (the second read starts from the object the first
    one left), and the array behind it is a function of the path's file
    and of [resize], [shape], [scale] and [rgb_mean] alone: two objects
    that agree on these four settings load the same array from the same
    file, whatever else differs. *)
Theorem C7_uncached_read_is_repeatable (self : t) (idx : Z) :
  __data self !! idx = None ->
  (getitem Image_open idx (getitem Image_open idx self).2).1
  = (getitem Image_open idx self).1
  /\ (getitem Image_open idx self).1 = on_demand Image_open self idx
  /\ forall (other : t) (open' : string -> option PIL.Image) (fpath : string),
       __resize other = __resize self ->
       __shape other = __shape self ->
       __scale other = __scale self ->
       __rgb_mean other = __rgb_mean self ->
       open' fpath = Image_open fpath ->
       load_image open' other fpath = load_image Image_open self fpath.
Proof.
  intros Hidx. rewrite !getitem_spec. simpl.
  rewrite (after_access_uncached _ _ Hidx), Hidx.
  split_and!; [done | done |].
  intros other open' fpath Hr Hs Hc Hm Ho. by apply load_image_depends_on.
Qed.

(** C9, amended. An index access changes at most the cached array of
    the index it reads: the paths, the labels, the length and the
    settings are the ones it started from, the cache has the same
    indices, and the arrays of the other indices are as they were,
    whether the access returns or raises. An index outside the cache is
    served by the on-demand load, is outside the cache afterwards too,
    and the object is left as it was. An index in the cache holds
    afterwards what the call left in its array: without a transform, or
    with one that leaves its argument alone, that is the array it held,
    and the object is left as it was; a transform that works in place
    changes it. *)
Theorem C9_getitem_changes_at_most_the_cached_array (self : t) (idx : Z) :
  data_path (getitem Image_open idx self).2 = data_path self
  /\ labels (getitem Image_open idx self).2 = labels self
  /\ len (getitem Image_open idx self).2 = len self
  /\ transform (getitem Image_open idx self).2 = transform self
  /\ __shape (getitem Image_open idx self).2 = __shape self
  /\ __resize (getitem Image_open idx self).2 = __resize self
  /\ __scale (getitem Image_open idx self).2 = __scale self
  /\ __rgb_mean (getitem Image_open idx self).2 = __rgb_mean self
  /\ dom (__data (getitem Image_open idx self).2) =@{gset Z} dom (__data self)
  /\ (forall j : Z, j <> idx ->
        __data (getitem Image_open idx self).2 !! j = __data self !! j)
  /\ (__data self !! idx = None ->
      (getitem Image_open idx self).1 = on_demand Image_open self idx
      /\ __data (getitem Image_open idx self).2 !! idx = None
      /\ (getitem Image_open idx self).2 = self)
  /\ (transform self = None -> (getitem Image_open idx self).2 = self)
  /\ (forall data : np.ndarray float,
        __data self !! idx = Some data ->
        __data (getitem Image_open idx self).2 !! idx = Some (left_in_place self data)
        /\ (left_in_place self data = data ->
            (getitem Image_open idx self).2 = self)).
Proof.
  rewrite getitem_spec. simpl.
  assert (Hfields : forall (A : Type) (field : t -> A),
             (forall j d s, field (store j d s) = field s) ->
             field (after_access self idx) = field self).
  { intros A field Hstore. unfold after_access.
    destruct (__data self !! idx), (transform self); by rewrite ?Hstore. }
  split_and!; try (by apply Hfields).
  - unfold after_access.
    destruct (__data self !! idx) as [d|] eqn:Hd; [|done].
    destruct (transform self) as [f|]; [|done].
    simpl. rewrite dom_insert_L. apply elem_of_dom_2 in Hd. set_solver.
  - intros j Hj. unfold after_access.
    destruct (__data self !! idx) as [d|]; [|done].
    destruct (transform self) as [f|]; [|done].
    simpl. by rewrite lookup_insert_ne.
  - intros Hidx. rewrite (after_access_uncached _ _ Hidx). by rewrite Hidx.
  - apply after_access_no_transform.
  - intros data Hidx. split.
    + unfold after_access, left_in_place. rewrite Hidx.
      destruct (transform self) as [f|]; [|done].
      simpl. by rewrite lookup_insert_eq.
    + by apply after_access_untouched.
Qed.

(** *** The loop of [__init__] *)

Lemma cache_bytes_insert (cache : gmap Z (np.ndarray float)) (i : Z)
    (data : np.ndarray float) :
  cache !! i = None ->
  cache_bytes (<[i := data]> cache) = nbytes data + cache_bytes cache.
Proof.
  intros Hi. unfold cache_bytes.
  rewrite map_fold_insert_L; [done | intros; lia | done].
Qed.

Lemma cache_bytes_map_seqZ (arrays : list (np.ndarray float)) :
  forall start, cache_bytes (map_seqZ start arrays) = total_bytes arrays.
Proof.
  induction arrays as [|d arrays IH]; intros start; simpl.
  - done.
  - rewrite cache_bytes_insert, IH; [done|].
    apply lookup_map_seqZ_None. lia.
Qed.

Section Loop.
Variables (self : t) (label_dirname : bool) (preload_limit : float).

(** What the loop does from index [i] on: it caches the arrays of a
    prefix [arrays] of the remaining images under the keys [i], [i+1],
    ..., adds their bytes to the running total, and appends one label
    per image. It caches nothing once [preload] is off; the running
    total stays within the budget if it was; and while [preload] was on,
    the image after the cached prefix is one whose bytes would have
    taken the total over the budget. *)
Lemma init_loop_spec (images : list string) :
  forall (i : Z) (st st' : loop_state),
    init_loop Image_open self label_dirname preload_limit i images st = Ok st' ->
    exists arrays : list (np.ndarray float),
      Forall2 (fun p d => load_image Image_open self p = Ok d)
              (take (length arrays) images) arrays
      /\ ls_data st' = map_seqZ i arrays ∪ ls_data st
      /\ ls_preload_size st' = ls_preload_size st + total_bytes arrays
      /\ ls_image_labels st'
         = ls_image_labels st ++ (derived_label label_dirname <$> images)
      /\ (ls_preload st = false -> arrays = [])
      /\ (int_gt_float (ls_preload_size st) (preload_limit * 1073741824)%float = false ->
          int_gt_float (ls_preload_size st') (preload_limit * 1073741824)%float = false)
      /\ (ls_preload st = true ->
          forall p, images !! length arrays = Some p ->
            exists d, load_image Image_open self p = Ok d
                      /\ int_gt_float (ls_preload_size st' + nbytes d)
                                      (preload_limit * 1073741824)%float = true).
Proof.
  induction images as [|imf images IH]; intros i st st' Hloop; simpl in Hloop.
  - injection Hloop as <-. exists []. simpl.
    rewrite app_nil_r, Z.add_0_r. split_and!; try done.
    by rewrite (left_id_L ∅ (∪)).
  - fold (derived_label label_dirname imf) in Hloop.
    destruct (ls_preload st) eqn:Hpre.
    + destruct (load_image Image_open self imf) as [data|] eqn:Hload;
        simpl in Hloop; [|done].
      fold (nbytes data) in Hloop.
      destruct (int_gt_float _ _) eqn:Hover.
      * apply IH in Hloop as (arrays & _ & Hdata & Hsize & Hlabels & Hoff & Hin & _).
        simpl in *. rewrite (Hoff eq_refl) in *. simpl in *.
        exists []. simpl. split_and!; try done.
        -- by rewrite Hlabels, <- app_assoc.
        -- intros _ p [= <-]. exists data. split; [done|].
           by rewrite Hsize, Z.add_0_r.
      * apply IH in Hloop as (arrays & Hall & Hdata & Hsize & Hlabels & _ & Hin & Hstop).
        simpl in *.
        exists (data :: arrays). simpl. split_and!; try done.
        -- by constructor.
        -- rewrite Hdata. rewrite <- insert_union_l.
           replace (Z.succ i) with (i + 1) by lia.
           symmetry. apply insert_union_r, lookup_map_seqZ_None. lia.
        -- rewrite Hsize. unfold nbytes. lia.
        -- by rewrite Hlabels, <- app_assoc.
        -- intros _. by apply Hin.
    + apply IH in Hloop as (arrays & _ & Hdata & Hsize & Hlabels & Hoff & Hin & _).
      simpl in *. rewrite (Hoff eq_refl) in *. simpl in *.
      exists []. simpl. split_and!; try done.
      by rewrite Hlabels, <- app_assoc.
Qed.

(** Once [preload] is off the loop loads nothing: it only appends
    labels, and cannot raise, whatever the remaining files are. *)
Lemma init_loop_preload_off (images : list string) :
  forall (i : Z) (st : loop_state),
    ls_preload st = false ->
    init_loop Image_open self label_dirname preload_limit i images st
    = Ok (mkLoop (ls_data st) (ls_preload_size st)
                 (ls_image_labels st ++ (derived_label label_dirname <$> images))
                 false).
Proof.
  induction images as [|imf images IH]; intros i st Hoff; simpl.
  - rewrite app_nil_r. destruct st; simpl in *. by subst.
  - rewrite Hoff. fold (derived_label label_dirname imf).
    rewrite IH by done. simpl. by rewrite <- app_assoc.
Qed.

End Loop.

(** [__init__] in closed form: the object it builds, with the arrays of
    a prefix of [images] cached under 0, 1, ... *)
Lemma init_spec (images : list string) (labels0 : option (list string))
    (label_dirname : bool) (resize : option (Z * Z)) (shape : string)
    (transform0 : option (np.ndarray float -> Result torch.Tensor * np.ndarray float))
    (scale : float) (rgb_mean : option (list float))
    (preload : bool) (preload_limit : float) (ds : t) :
  init Image_open images labels0 label_dirname resize shape transform0 scale rgb_mean
       preload preload_limit = Ok ds ->
  exists arrays : list (np.ndarray float),
    Forall2 (fun p d => load_image Image_open ds p = Ok d)
            (take (length arrays) images) arrays
    /\ ds = mk transform0 shape resize scale rgb_mean (map_seqZ 0 arrays) images
              (match labels0 with
               | Some l => l
               | None => derived_label label_dirname <$> images
               end)
              (length images)
    /\ (preload = false -> arrays = [])
    /\ (int_gt_float 0 (preload_limit * 1073741824)%float = false ->
        int_gt_float (total_bytes arrays) (preload_limit * 1073741824)%float = false)
    /\ (preload = true ->
        forall p, images !! length arrays = Some p ->
          exists d, load_image Image_open ds p = Ok d
                    /\ int_gt_float (total_bytes arrays + nbytes d)
                                    (preload_limit * 1073741824)%float = true).
Proof.
  unfold init. intros Hinit.
  destruct (init_loop _ _ _ _ _ _ _) as [st|] eqn:Hloop; simpl in Hinit; [|done].
  injection Hinit as <-.
  apply init_loop_spec in Hloop
    as (arrays & Hall & Hdata & Hsize & Hlabels & Hoff & Hin & Hstop).
  simpl in *. rewrite (right_id_L ∅ (∪)) in Hdata.
  rewrite Hsize in Hin, Hstop. simpl in Hin, Hstop.
  exists arrays. rewrite Hdata, Hlabels. split_and!; done.
Qed.

(** C4. A dataset built with [preload=True] and a budget of
    [preload_limit] GiB that the empty cache is within (a budget that is
    not negative). The cached indices are exactly 0 .. k-1 for some
    k <= len(images); each cached array is what the pipeline loads from
    its path; the bytes of the cache do not exceed the budget; if k is
    short of the end, image k is one whose bytes would have taken the
    total over the budget, and nothing from k on is cached whatever its
    size; and an access to any index below len(images), cached or not,
    gives exactly what the on-demand load gives. *)
Theorem C4_preload_stays_within_budget
    (images : list string) (labels0 : option (list string))
    (label_dirname : bool) (resize : option (Z * Z)) (shape : string)
    (transform0 : option (np.ndarray float -> Result torch.Tensor * np.ndarray float))
    (scale : float) (rgb_mean : option (list float))
    (preload_limit : float) (ds : t) :
  init Image_open images labels0 label_dirname resize shape transform0 scale rgb_mean
       true preload_limit = Ok ds ->
  int_gt_float 0 (preload_limit * 1073741824)%float = false ->
  exists k : nat,
    (k <= length images)%nat
    /\ (forall i : Z, is_Some (__data ds !! i) <-> 0 <= i < Z.of_nat k)
    /\ (forall (i : nat) p d,
          __data ds !! Z.of_nat i = Some d -> images !! i = Some p ->
          load_image Image_open ds p = Ok d)
    /\ int_gt_float (cache_bytes (__data ds)) (preload_limit * 1073741824)%float = false
    /\ (forall p, images !! k = Some p ->
          exists d, load_image Image_open ds p = Ok d
                    /\ int_gt_float (cache_bytes (__data ds) + nbytes d)
                                    (preload_limit * 1073741824)%float = true)
    /\ (forall i : nat, (i < length images)%nat ->
          (getitem Image_open (Z.of_nat i) ds).1 = on_demand Image_open ds (Z.of_nat i)).
Proof.
  intros Hinit Hbudget.
  apply init_spec in Hinit as (arrays & Hall & Hds & _ & Hin & Hstop).
  assert (Hcache : __data ds = map_seqZ 0 arrays) by (by rewrite Hds).
  assert (Hpaths : data_path ds = images) by (by rewrite Hds).
  pose proof (Forall2_length _ _ _ Hall) as Hk. rewrite length_take in Hk.
  exists (length arrays). rewrite Hcache, cache_bytes_map_seqZ.
  assert (Hcached : forall (i : nat) p d,
             (map_seqZ 0 arrays : gmap Z (np.ndarray float)) !! Z.of_nat i = Some d ->
             images !! i = Some p -> load_image Image_open ds p = Ok d).
  { intros i p d Hd Hp. rewrite lookup_map_seqZ_0, Nat2Z.id in Hd by lia.
    eapply (Forall2_lookup_lr _ _ _ i p d Hall); [|done].
    rewrite lookup_take_lt; [done|]. by apply lookup_lt_Some in Hd. }
  split_and!.
  - lia.
  - intros i. rewrite lookup_map_seqZ_is_Some. lia.
  - done.
  - by apply Hin.
  - by apply Hstop.
  - intros i Hi. rewrite getitem_spec. simpl. rewrite Hcache.
    destruct (map_seqZ 0 arrays !! Z.of_nat i) as [d|] eqn:Hd; [|done].
    destruct (lookup_lt_is_Some_2 images i Hi) as [p Hp].
    unfold on_demand. rewrite Hpaths, (py_index_nat _ _ _ Hp). simpl.
    by rewrite (Hcached i p d Hd Hp).
Qed.

(** C8. For a dataset built over [images]: its length is the number of
    paths, and for an index [i] below it whose file the pipeline loads
    and whose array the transform (or the tensor wrapping) accepts, the
    access returns that tensor paired with the [i]-th supplied label when
    [labels] was given, and otherwise with the basename of path [i], or
    of its directory when [label_dirname] is set. The object is left as
    the access to [i] leaves it, which is as it was when the array is
    left alone. *)
Theorem C8_len_and_label_of_index
    (images : list string) (labels0 : option (list string))
    (label_dirname : bool) (resize : option (Z * Z)) (shape : string)
    (transform0 : option (np.ndarray float -> Result torch.Tensor * np.ndarray float))
    (scale : float) (rgb_mean : option (list float))
    (preload : bool) (preload_limit : float) (ds : t)
    (i : nat) (path label : string) (arr : np.ndarray float) (tsr : torch.Tensor) :
  init Image_open images labels0 label_dirname resize shape transform0 scale rgb_mean
       preload preload_limit = Ok ds ->
  images !! i = Some path ->
  load_image Image_open ds path = Ok arr ->
  finish ds arr = Ok tsr ->
  match labels0 with
  | Some l => l !! i
  | None => Some (if label_dirname
                  then os_path.basename (os_path.dirname path)
                  else os_path.basename path)
  end = Some label ->
  len ds = length images
  /\ getitem Image_open (Z.of_nat i) ds
     = (Ok (tsr, label), after_access ds (Z.of_nat i))
  /\ (left_in_place ds arr = arr ->
      getitem Image_open (Z.of_nat i) ds = (Ok (tsr, label), ds)).
Proof.
  intros Hinit Hpath Harr Htsr Hlabel.
  apply init_spec in Hinit as (arrays & Hall & Hds & _).
  assert (Hcache : __data ds = map_seqZ 0 arrays) by (by rewrite Hds).
  assert (Hpaths : data_path ds = images) by (by rewrite Hds).
  assert (Hlabels : labels ds !! i = Some label).
  { rewrite Hds. simpl. destruct labels0 as [l|]; [done|].
    rewrite list_lookup_fmap, Hpath. simpl. by injection Hlabel as <-. }
  assert (Hcached : forall d, __data ds !! Z.of_nat i = Some d -> d = arr).
  { intros d. rewrite Hcache, lookup_map_seqZ_0, Nat2Z.id by lia. intros Hd.
    assert (load_image Image_open ds path = Ok d) as Hd'.
    { eapply (Forall2_lookup_lr _ _ _ i path d Hall); [|done].
      rewrite lookup_take_lt; [done|]. by apply lookup_lt_Some in Hd. }
    rewrite Harr in Hd'. by injection Hd' as <-. }
  assert (Hresult : getitem Image_open (Z.of_nat i) ds
                    = (Ok (tsr, label), after_access ds (Z.of_nat i))).
  { rewrite getitem_spec. f_equal.
    destruct (__data ds !! Z.of_nat i) as [d|] eqn:Hd.
    - rewrite (Hcached d eq_refl), Htsr. simpl.
      by rewrite (py_index_nat _ _ _ Hlabels).
    - unfold on_demand. rewrite Hpaths, (py_index_nat _ _ _ Hpath). simpl.
      rewrite Harr. simpl. rewrite Htsr. simpl.
      by rewrite (py_index_nat _ _ _ Hlabels). }
  split_and!; [by rewrite Hds | done |].
  intros Hsame. rewrite Hresult. f_equal.
  destruct (__data ds !! Z.of_nat i) as [d|] eqn:Hd.
  - apply (after_access_untouched _ _ arr); [|done]. by rewrite Hd, (Hcached d eq_refl).
  - by apply after_access_uncached.
Qed.

End ImageDatasetFacts.

(** ** ImageDataset: instances of the theorems on the sample files *)

(** The pipeline on the 2x1 RGB file, channel-first, centred: rows of
    red, green and blue samples, each divided by 255 and reduced by the
    channel's mean. *)
Example tabby_chw_centred :
  np.shape (Samples.loaded (Samples.dataset "chw" None 1 (Some [0.5; 0.25; 0.125]%float))
              "/data/cats/tabby.png") = [3; 1; 2]%nat
  /\ np.tolist (Samples.loaded (Samples.dataset "chw" None 1 (Some [0.5; 0.25; 0.125]%float))
                  "/data/cats/tabby.png")
     = [1 - 0.5; 0 - 0.5; 0 - 0.25; 102 / 255 - 0.25; 51 / 255 - 0.125; 204 / 255 - 0.125]%float.
Proof. split; vm_compute; reflexivity. Qed.

(** A grey file becomes three equal channels; a missing file, a shape
    string with a repeated axis and one with an unknown letter raise. *)
Example load_image_outcomes :
  np.tolist (Samples.loaded (Samples.dataset "hwc" None 2 None) "/data/dogs/pug.png")
  = [128 / 255 * 2; 128 / 255 * 2; 128 / 255 * 2]%float
  /\ ImageDataset.load_image (H:=Samples.core) Samples.Image_open
       (Samples.dataset "hwc" None 1 None) "/data/none.png" = Raise OSError
  /\ ImageDataset.load_image (H:=Samples.core) Samples.Image_open
       (Samples.dataset "chh" None 1 None) "/data/dogs/pug.png" = Raise ValueError
  /\ ImageDataset.load_image (H:=Samples.core) Samples.Image_open
       (Samples.dataset "cxy" None 1 None) "/data/dogs/pug.png" = Raise KeyError.
Proof. split_and!; vm_compute; reflexivity. Qed.

(** The preload loop stops for good at the first overflow: with a budget
    of 50 bytes the 24-byte array is cached, the 48-byte one is not, and
    neither is the last one, although its 24 bytes would still fit. *)
Example preload_stops_at_first_overflow :
  (fst <$> map_to_list (ImageDataset.__data Samples.preloaded)) = [0]
  /\ ImageDataset.cache_bytes (ImageDataset.__data Samples.preloaded) = 24
  /\ ImageDataset.nbytes
       (Samples.loaded Samples.preloaded "/data/ghost.png") = 24
  /\ int_gt_float (24 + 24) (Samples.budget_50_bytes * 1073741824)%float = false.
Proof. vm_compute. done. Qed.

(** C9 as stated fails: on the sample files preloaded under a transform
    that subtracts 0.5 in place, the first value of the cached array of
    index 0 is 1 before [dataset[0]], 0.5 after it and 0 after a second
    one; the cache, and so the object, is not what it was. *)
Lemma C9_counterexample_transform_in_place :
  Samples.cached_value Samples.preloaded_shifting 0 [0; 0; 0]%nat = Some 1%float
  /\ Samples.cached_value
       (ImageDataset.getitem (H:=Samples.core) Samples.Image_open 0
          Samples.preloaded_shifting).2 0 [0; 0; 0]%nat = Some 0.5%float
  /\ Samples.cached_value
       (ImageDataset.getitem (H:=Samples.core) Samples.Image_open 0
          (ImageDataset.getitem (H:=Samples.core) Samples.Image_open 0
             Samples.preloaded_shifting).2).2 0 [0; 0; 0]%nat = Some 0%float
  /\ ImageDataset.__data
       (ImageDataset.getitem (H:=Samples.core) Samples.Image_open 0
          Samples.preloaded_shifting).2
     <> ImageDataset.__data Samples.preloaded_shifting
  /\ (ImageDataset.getitem (H:=Samples.core) Samples.Image_open 0
        Samples.preloaded_shifting).2
     <> Samples.preloaded_shifting.
Proof.
  assert (Hchanged :
            Samples.cached_value_is
              (ImageDataset.getitem (H:=Samples.core) Samples.Image_open 0
                 Samples.preloaded_shifting).2 0 [0; 0; 0]%nat 1
            <> Samples.cached_value_is Samples.preloaded_shifting 0 [0; 0; 0]%nat 1).
  { vm_compute. discriminate. }
  split_and!; try (vm_compute; reflexivity).
  - intros Heq. apply Hchanged.
    unfold Samples.cached_value_is, Samples.cached_value. by rewrite Heq.
  - intros Heq. apply Hchanged. by rewrite Heq.
Qed.

(** C3 as stated fails: with [resize=(2, 3)] read as (height, width) the
    claim expects an array 2 high and 3 wide; the code hands the tuple to
    Pillow, which reads it as (width, height), and the array is 3 high
    and 2 wide. *)
Lemma C3_counterexample_size_is_not_height_width :
  exists raw,
    ImageDataset.decoded (H:=Samples.core) Samples.Image_open
      (Samples.dataset "hwc" (Some (2, 3)) 1 None) "/data/cats/tabby.png" = Ok raw
    /\ np.shape raw = [3; 2; 3]%nat
    /\ np.shape raw <> [2; 3; 3]%nat.
Proof.
  eexists. split; [vm_compute; reflexivity|]. split; [reflexivity|]. simpl. congruence.
Qed.

(** C3's theorem on the sample file, resized to width 4 and height 2. *)
Lemma C3_resize_reads_size_as_width_height_witness :
  exists data im resized,
    ImageDataset.decoded (H:=Samples.core) Samples.Image_open
      (ImageDataset.with_resize None (Samples.dataset "hwc" (Some (4, 2)) 1 None))
      "/data/cats/tabby.png" = Ok data
    /\ PIL.fromarray data = Ok im
    /\ PIL.resize (H:=Samples.core) im (4, 2) 2 = Ok resized
    /\ PIL.size resized = (Z.to_nat 4, Z.to_nat 2)
    /\ np.shape (PIL.asarray resized)
       = [Z.to_nat 2; Z.to_nat 4; PIL.bands (PIL.mode resized)]
    /\ ImageDataset.decoded (H:=Samples.core) Samples.Image_open
         (Samples.dataset "hwc" (Some (4, 2)) 1 None) "/data/cats/tabby.png"
       = Ok (PIL.asarray resized)
    /\ ImageDataset.load_image (H:=Samples.core) Samples.Image_open
         (Samples.dataset "hwc" (Some (4, 2)) 1 None) "/data/cats/tabby.png"
       = ImageDataset.reshape_scale_center
           (Samples.dataset "hwc" (Some (4, 2)) 1 None) (PIL.asarray resized).
Proof.
  apply (C3_resize_reads_size_as_width_height Samples.Image_open
           (Samples.dataset "hwc" (Some (4, 2)) 1 None)
           "/data/cats/tabby.png" Samples.tabby 4 2);
    [reflexivity | reflexivity | lia | lia].
Defined.

(** C4's theorem on the dataset preloaded with a budget of 50 bytes. *)
Lemma C4_preload_stays_within_budget_witness :
  exists k : nat,
    (k <= length Samples.images_large_in_middle)%nat
    /\ (forall i : Z,
          is_Some (ImageDataset.__data Samples.preloaded !! i) <-> 0 <= i < Z.of_nat k)
    /\ (forall (i : nat) p d,
          ImageDataset.__data Samples.preloaded !! Z.of_nat i = Some d ->
          Samples.images_large_in_middle !! i = Some p ->
          ImageDataset.load_image (H:=Samples.core) Samples.Image_open
            Samples.preloaded p = Ok d)
    /\ int_gt_float (ImageDataset.cache_bytes (ImageDataset.__data Samples.preloaded))
                    (Samples.budget_50_bytes * 1073741824)%float = false
    /\ (forall p, Samples.images_large_in_middle !! k = Some p ->
          exists d,
            ImageDataset.load_image (H:=Samples.core) Samples.Image_open
              Samples.preloaded p = Ok d
            /\ int_gt_float
                 (ImageDataset.cache_bytes (ImageDataset.__data Samples.preloaded)
                  + ImageDataset.nbytes d)
                 (Samples.budget_50_bytes * 1073741824)%float = true)
    /\ (forall i : nat, (i < length Samples.images_large_in_middle)%nat ->
          (ImageDataset.getitem (H:=Samples.core) Samples.Image_open
             (Z.of_nat i) Samples.preloaded).1
          = ImageDataset.on_demand (H:=Samples.core) Samples.Image_open
              Samples.preloaded (Z.of_nat i)).
Proof.
  apply (C4_preload_stays_within_budget Samples.Image_open
           Samples.images_large_in_middle None true None "chw" None 1 None
           Samples.budget_50_bytes Samples.preloaded);
    [vm_compute; reflexivity | vm_compute; reflexivity].
Defined.

(** C5's theorem on the sample RGB file. *)
Lemma C5_rgb_hwc_is_pixels_over_255_witness :
  exists data,
    ImageDataset.load_image (H:=Samples.core) Samples.Image_open
      (Samples.dataset "hwc" None 1 None) "/data/cats/tabby.png" = Ok data
    /\ np.shape data = np.shape (PIL.asarray Samples.tabby)
    /\ np.shape data = [(PIL.size Samples.tabby).2; (PIL.size Samples.tabby).1; 3%nat]
    /\ forall y x c,
         np.item data [y; x; c]
         = (of_uint8 (np.item (PIL.asarray Samples.tabby) [y; x; c]) / 255)%float.
Proof.
  apply (C5_rgb_hwc_is_pixels_over_255 Samples.Image_open
           (Samples.dataset "hwc" None 1 None) "/data/cats/tabby.png" Samples.tabby);
    reflexivity.
Defined.

(** C6's theorem on the sample RGB file, channel-first, with means
    0.5, 0.25 and 0.125. *)
Lemma C6_centering_subtracts_mean_per_channel_witness :
  exists data,
    ImageDataset.load_image (H:=Samples.core) Samples.Image_open
      (Samples.dataset "chw" None 1 (Some [0.5; 0.25; 0.125]%float))
      "/data/cats/tabby.png" = Ok data
    /\ np.shape data
       = np.shape (Samples.loaded (Samples.dataset "chw" None 1 None)
                     "/data/cats/tabby.png")
    /\ hd 0%nat (np.shape data) = 3%nat
    /\ (forall k i j, exists y x,
          (y = i /\ x = j \/ y = j /\ x = i)
          /\ np.item (Samples.loaded (Samples.dataset "chw" None 1 None)
                        "/data/cats/tabby.png") [k; i; j]
             = (of_uint8
                  (np.item
                     (Samples.decoded
                        (Samples.dataset "chw" None 1 (Some [0.5; 0.25; 0.125]%float))
                        "/data/cats/tabby.png") [y; x; k]) / 255 * 1)%float)
    /\ (forall k i j, (k < 3)%nat ->
          np.item data [k; i; j]
          = (np.item (Samples.loaded (Samples.dataset "chw" None 1 None)
                        "/data/cats/tabby.png") [k; i; j]
             - nth k [0.5; 0.25; 0.125] 0)%float).
Proof.
  apply (C6_centering_subtracts_mean_per_channel Samples.Image_open
           (Samples.dataset "chw" None 1 (Some [0.5; 0.25; 0.125]%float))
           "/data/cats/tabby.png" 0.5%float 0.25%float 0.125%float "hw"
           (Samples.decoded
              (Samples.dataset "chw" None 1 (Some [0.5; 0.25; 0.125]%float))
              "/data/cats/tabby.png")
           1%nat 2%nat
           (Samples.loaded (Samples.dataset "chw" None 1 None) "/data/cats/tabby.png"));
    reflexivity.
Defined.

(** C7's theorem on index 0 of a sample dataset with an empty cache. *)
Lemma C7_uncached_read_is_repeatable_witness :
  (ImageDataset.getitem (H:=Samples.core) Samples.Image_open 0
     (ImageDataset.getitem (H:=Samples.core) Samples.Image_open 0
        (Samples.dataset "chw" None 1 None)).2).1
  = (ImageDataset.getitem (H:=Samples.core) Samples.Image_open 0
       (Samples.dataset "chw" None 1 None)).1
  /\ (ImageDataset.getitem (H:=Samples.core) Samples.Image_open 0
        (Samples.dataset "chw" None 1 None)).1
     = ImageDataset.on_demand (H:=Samples.core) Samples.Image_open
         (Samples.dataset "chw" None 1 None) 0
  /\ forall (other : ImageDataset.t) (open' : string -> option PIL.Image)
            (fpath : string),
       ImageDataset.__resize other
       = ImageDataset.__resize (Samples.dataset "chw" None 1 None) ->
       ImageDataset.__shape other
       = ImageDataset.__shape (Samples.dataset "chw" None 1 None) ->
       ImageDataset.__scale other
       = ImageDataset.__scale (Samples.dataset "chw" None 1 None) ->
       ImageDataset.__rgb_mean other
       = ImageDataset.__rgb_mean (Samples.dataset "chw" None 1 None) ->
       open' fpath = Samples.Image_open fpath ->
       ImageDataset.load_image (H:=Samples.core) open' other fpath
       = ImageDataset.load_image (H:=Samples.core) Samples.Image_open
           (Samples.dataset "chw" None 1 None) fpath.
Proof.
  apply (C7_uncached_read_is_repeatable Samples.Image_open
           (Samples.dataset "chw" None 1 None) 0).
  reflexivity.
Defined.

(** C8's theorem on index 1 of the preloaded sample dataset, which is not
    in its cache: the label is the directory name of the path. *)
Lemma C8_len_and_label_of_index_witness :
  ImageDataset.len Samples.preloaded = length Samples.images_large_in_middle
  /\ ImageDataset.getitem (H:=Samples.core) Samples.Image_open (Z.of_nat 1)
       Samples.preloaded
     = (Ok (torch.FloatTensor (Samples.loaded Samples.preloaded "/data/cats/tabby.png"),
            "cats"),
        ImageDataset.after_access Samples.preloaded (Z.of_nat 1))
  /\ (ImageDataset.left_in_place Samples.preloaded
        (Samples.loaded Samples.preloaded "/data/cats/tabby.png")
      = Samples.loaded Samples.preloaded "/data/cats/tabby.png" ->
      ImageDataset.getitem (H:=Samples.core) Samples.Image_open (Z.of_nat 1)
        Samples.preloaded
      = (Ok (torch.FloatTensor (Samples.loaded Samples.preloaded "/data/cats/tabby.png"),
             "cats"),
         Samples.preloaded)).
Proof.
  apply (C8_len_and_label_of_index Samples.Image_open
           Samples.images_large_in_middle None true None "chw" None 1 None
           true Samples.budget_50_bytes Samples.preloaded
           1%nat "/data/cats/tabby.png" "cats"
           (Samples.loaded Samples.preloaded "/data/cats/tabby.png")
           (torch.FloatTensor (Samples.loaded Samples.preloaded "/data/cats/tabby.png")));
    [vm_compute; reflexivity | reflexivity | vm_compute; reflexivity
    | reflexivity | vm_compute; reflexivity].
Defined.

(** ** FeatureExtractor: construction, and construction followed by [run] *)

Section FeatureExtractorMore.

Lemma register_layer_spec (self : FeatureExtractor.t) (layer : string) (w : World) :
  FeatureExtractor.register_layer self layer w
  = match resolve self layer with
    | Ok l => (Ok tt, add_forward_hook l w)
    | Raise e => (Raise e, w)
    end.
Proof.
  unfold FeatureExtractor.register_layer, resolve, bind, lift.
  destruct (FeatureExtractor.__layer_map self) as [map|]; simpl.
  - destruct (map !! layer) as [layer'|]; simpl; [|done].
    by destruct (nn.parse_layer_name _ layer').
  - by destruct (nn.parse_layer_name _ layer).
Qed.

Lemma for_each_register_ok (self : FeatureExtractor.t) (layers : list string)
    (ls : list nn.layer) :
  Forall2 (fun name l => resolve self name = Ok l) layers ls ->
  forall w,
    for_each layers (FeatureExtractor.register_layer self) w
    = (Ok tt, mkWorld (outputs w) (encoder_device w) (forward_hooks w ++ ls)
                      (forward_calls w)).
Proof.
  induction 1 as [|name l layers ls Hname _ IH]; intros w; simpl.
  - rewrite app_nil_r. by destruct w.
  - unfold bind. rewrite register_layer_spec, Hname, IH. simpl.
    by rewrite <- app_assoc.
Qed.

Lemma for_each_register_fails (self : FeatureExtractor.t) (before after : list string)
    (bad : string) (ls : list nn.layer) (e : exn) :
  Forall2 (fun name l => resolve self name = Ok l) before ls ->
  resolve self bad = Raise e ->
  forall w,
    for_each (before ++ bad :: after) (FeatureExtractor.register_layer self) w
    = (Raise e, mkWorld (outputs w) (encoder_device w) (forward_hooks w ++ ls)
                        (forward_calls w)).
Proof.
  intros Hbefore Hbad. induction Hbefore as [|name l before ls Hname _ IH];
    intros w; simpl.
  - unfold bind. rewrite register_layer_spec, Hbad. rewrite app_nil_r. by destruct w.
  - unfold bind. rewrite register_layer_spec, Hname, IH. simpl.
    by rewrite <- app_assoc.
Qed.

Lemma init_hooks_every_resolved_layer_aux
    (encoder : nn.Module_) (layers : list string)
    (layer_mapping : option (gmap string string)) (device : string)
    (detach : bool) (ls : list nn.layer) (w : World) :
  Forall2 (fun name l =>
             resolve (FeatureExtractor.mk encoder layers layer_mapping detach device)
                     name = Ok l) layers ls ->
  FeatureExtractor.init encoder layers layer_mapping device detach w
  = (Ok (FeatureExtractor.mk encoder layers layer_mapping detach device),
     mkWorld [] device ls (forward_calls w)).
Proof.
  intros Hls. unfold FeatureExtractor.init, bind, FeatureExtractorHandle.init, modify.
  simpl. by rewrite (for_each_register_ok _ _ _ Hls).
Qed.

(** X1. When every requested name resolves, construction succeeds: it
    returns the object with the settings it was given and leaves the
    encoder on the requested device, the new handle's buffer empty, and
    one hook per requested name on the sub-module the name resolves to,
    in the order of the names. *)
Theorem init_hooks_every_resolved_layer
    (encoder : nn.Module_) (layers : list string)
    (layer_mapping : option (gmap string string)) (device : string)
    (detach : bool) (ls : list nn.layer) (w : World) :
  Forall2 (fun name l =>
             resolve (FeatureExtractor.mk encoder layers layer_mapping detach device)
                     name = Ok l) layers ls ->
  FeatureExtractor.init encoder layers layer_mapping device detach w
  = (Ok (FeatureExtractor.mk encoder layers layer_mapping detach device),
     mkWorld [] device ls (forward_calls w)).
Proof.
  apply init_hooks_every_resolved_layer_aux.
Qed.

(** X2. A requested name that does not resolve aborts construction with
    the resolution error (KeyError when the mapping has no such key), and
    construction does not undo what it did before: the encoder stays on
    the requested device and the names before the bad one keep their
    hooks. *)
Theorem init_fails_at_first_unresolved_layer
    (encoder : nn.Module_) (before after : list string) (bad : string)
    (layer_mapping : option (gmap string string)) (device : string)
    (detach : bool) (ls : list nn.layer) (e : exn) (w : World) :
  Forall2 (fun name l =>
             resolve (FeatureExtractor.mk encoder (before ++ bad :: after)
                        layer_mapping detach device) name = Ok l) before ls ->
  resolve (FeatureExtractor.mk encoder (before ++ bad :: after)
             layer_mapping detach device) bad = Raise e ->
  FeatureExtractor.init encoder (before ++ bad :: after) layer_mapping device detach w
  = (Raise e, mkWorld [] device ls (forward_calls w))
  /\ (forall map, layer_mapping = Some map -> map !! bad = None -> e = KeyError).
Proof.
  intros Hbefore Hbad. split.
  - unfold FeatureExtractor.init, bind, FeatureExtractorHandle.init, modify.
    simpl. by rewrite (for_each_register_fails _ _ _ _ _ _ Hbefore Hbad).
  - intros map -> Hmap. unfold resolve in Hbad. simpl in Hbad.
    rewrite Hmap in Hbad. simpl in Hbad. by injection Hbad.
Qed.

Lemma filter_eq_NoDup (l : list nn.layer) (x : nn.layer) :
  NoDup l -> x ∈ l -> filter (fun y => y = x) l = [x].
Proof.
  induction 1 as [|y l Hy Hnd IH]; intros Hx.
  - by apply elem_of_nil in Hx.
  - destruct (decide (y = x)) as [->|Hne].
    + rewrite filter_cons_True by done. f_equal.
      clear IH Hx. induction l as [|z l IHl]; [done|].
      rewrite filter_cons_False.
      * apply IHl; [set_solver | by inversion Hnd].
      * intros ->. set_solver.
    + rewrite filter_cons_False by done. apply IH. set_solver.
Qed.

Lemma filter_eq_not_in (l : list nn.layer) (x : nn.layer) :
  x ∉ l -> filter (fun y => y = x) l = [].
Proof.
  induction l as [|y l IH]; intros Hx; [done|].
  rewrite filter_cons_False by set_solver. apply IH. set_solver.
Qed.

(** Calls of sub-modules that carry no hook leave no trace in the buffer,
    and a sub-module hooked once contributes one entry per call. *)
Lemma captured_hooked_once (hooks : list nn.layer)
    (trace : list (nn.layer * torch.Tensor)) :
  NoDup hooks ->
  captured hooks trace
  = (fun c => torch.clone (torch.detach c.2))
      <$> filter (fun c => c.1 ∈ hooks) trace.
Proof.
  intros Hnd. induction trace as [|[l out] trace IH]; [done|].
  rewrite captured_cons, IH. unfold captured at 1. simpl. rewrite app_nil_r.
  destruct (decide (l ∈ hooks)) as [Hin|Hout].
  - rewrite filter_cons_True by done. by rewrite filter_eq_NoDup.
  - rewrite filter_cons_False by done. by rewrite filter_eq_not_in.
Qed.

Lemma Forall2_resolve_lookup (self : FeatureExtractor.t) (layers : list string)
    (ls : list nn.layer) (i j : nat) (name : string) :
  Forall2 (fun name l => resolve self name = Ok l) layers ls ->
  NoDup ls ->
  layers !! i = Some name -> layers !! j = Some name -> i = j.
Proof.
  intros Hall Hnd Hi Hj.
  destruct (Forall2_lookup_l _ _ _ _ _ Hall Hi) as (l1 & Hl1 & Hr1).
  destruct (Forall2_lookup_l _ _ _ _ _ Hall Hj) as (l2 & Hl2 & Hr2).
  rewrite Hr1 in Hr2. injection Hr2 as <-.
  by eapply NoDup_lookup.
Qed.

(** X3. Construction followed by [run], in the intended use: the
    requested names resolve to pairwise different sub-modules, and the
    forward pass completes and calls each of them exactly once, in the
    order of the names (other sub-modules may run in between). Then [run]
    returns a mapping with exactly the requested names as keys, and each
    name is bound to a detached copy of the output of the sub-module it
    resolves to (as a host array when [detach] is set). *)
Theorem init_then_run_returns_each_layers_output
    (encoder : nn.Module_) (layers : list string)
    (layer_mapping : option (gmap string string)) (device : string)
    (detach : bool) (ls : list nn.layer) (outs : list torch.Tensor)
    (x : tensor_t) (w : World) :
  Forall2 (fun name l =>
             resolve (FeatureExtractor.mk encoder layers layer_mapping detach device)
                     name = Ok l) layers ls ->
  NoDup ls ->
  (nn.forward encoder
     (forward_input (FeatureExtractor.mk encoder layers layer_mapping detach device) x)).2
  = None ->
  filter (fun c => c.1 ∈ ls)
    (nn.forward encoder
       (forward_input (FeatureExtractor.mk encoder layers layer_mapping detach device) x)).1
  = zip ls outs ->
  length outs = length ls ->
  exists self w1 features w2,
    FeatureExtractor.init encoder layers layer_mapping device detach w = (Ok self, w1)
    /\ FeatureExtractor.run self x w1 = (Ok features, w2)
    /\ dom features = list_to_set layers
    /\ forall i name out,
         layers !! i = Some name -> outs !! i = Some out ->
         features !! name
         = Some (returned_value self (torch.clone (torch.detach out))).
Proof.
  intros Hls Hnd Hdone Htrace Hlen.
  set (self := FeatureExtractor.mk encoder layers layer_mapping detach device) in *.
  pose proof (Forall2_length _ _ _ Hls) as Hlayers.
  assert (Hbuf : captured ls (nn.forward encoder (forward_input self x)).1
                 = (fun out => torch.clone (torch.detach out)) <$> outs).
  { rewrite captured_hooked_once, Htrace by done.
    rewrite <- (snd_zip ls outs) at 2 by lia.
    by rewrite <- list_fmap_compose. }
  destruct (features_of_spec
              ((fun out => torch.clone (torch.detach out)) <$> outs) layers 0 ∅)
    as (f & Hf & Hdom & Hpos & _); [rewrite length_fmap; simpl; lia|].
  exists self, (mkWorld [] device ls (forward_calls w)),
    (returned_value self <$> f).
  exists (mkWorld ((fun out => torch.clone (torch.detach out)) <$> outs) device ls
            (forward_calls w ++ [forward_input self x])).
  split; [apply init_hooks_every_resolved_layer_aux; exact Hls|].
  rewrite run_spec. simpl. fold self.
  rewrite Hdone, Hbuf, Hf. simpl. split_and!.
  - unfold returned_value. simpl. clear Hls Hdone Htrace Hbuf. subst self.
    f_equal. destruct detach; [|done].
    apply dict_map_total, to_numpy_ok.
  - rewrite dom_fmap_L, Hdom. set_solver.
  - intros i name out Hi Hout. rewrite lookup_fmap, (Hpos i name Hi).
    + simpl. by rewrite list_lookup_fmap, Hout.
    + intros Hin. apply list_elem_of_lookup in Hin as [j Hj].
      rewrite lookup_drop in Hj.
      pose proof (Forall2_resolve_lookup self layers ls _ _ _ Hls Hnd Hi Hj). lia.
Qed.

(** X19. The mapping follows the order of the calls, not the identity
    of the sub-modules: with two requested names that resolve to
    different sub-modules, on a pass that calls the second name's
    sub-module before the first's, [run] succeeds and binds each name to
    the output of the other name's sub-module. *)
Theorem run_binds_outputs_in_call_order
    (encoder : nn.Module_) (na nb : string)
    (layer_mapping : option (gmap string string)) (device : string)
    (detach : bool) (la lb : nn.layer) (oa ob : torch.Tensor)
    (x : tensor_t) (w : World) :
  resolve (FeatureExtractor.mk encoder [na; nb] layer_mapping detach device) na = Ok la ->
  resolve (FeatureExtractor.mk encoder [na; nb] layer_mapping detach device) nb = Ok lb ->
  la <> lb ->
  (nn.forward encoder
     (forward_input (FeatureExtractor.mk encoder [na; nb] layer_mapping detach device)
        x)).2 = None ->
  filter (fun c => c.1 ∈ [la; lb])
    (nn.forward encoder
       (forward_input (FeatureExtractor.mk encoder [na; nb] layer_mapping detach device)
          x)).1
  = [(lb, ob); (la, oa)] ->
  exists self w1 features w2,
    FeatureExtractor.init encoder [na; nb] layer_mapping device detach w = (Ok self, w1)
    /\ FeatureExtractor.run self x w1 = (Ok features, w2)
    /\ features !! na = Some (returned_value self (torch.clone (torch.detach ob)))
    /\ features !! nb = Some (returned_value self (torch.clone (torch.detach oa))).
Proof.
  intros Ha Hb Hne Hdone Htrace.
  set (self := FeatureExtractor.mk encoder [na; nb] layer_mapping detach device) in *.
  assert (Hnames : na <> nb).
  { intros ->. rewrite Ha in Hb. by injection Hb. }
  assert (Hnd : NoDup [la; lb]).
  { apply NoDup_cons. split; [set_solver|]. apply NoDup_singleton. }
  exists self, (mkWorld [] device [la; lb] (forward_calls w)).
  exists (returned_value self
            <$> (<[nb := torch.clone (torch.detach oa)]>
                   (<[na := torch.clone (torch.detach ob)]> ∅))).
  exists (mkWorld [torch.clone (torch.detach ob); torch.clone (torch.detach oa)]
            device [la; lb] (forward_calls w ++ [forward_input self x])).
  split_and!.
  - apply init_hooks_every_resolved_layer_aux. by repeat constructor.
  - rewrite run_spec. simpl. fold self.
    rewrite Hdone, (captured_hooked_once _ _ Hnd), Htrace. simpl.
    f_equal. unfold returned_value. subst self. simpl.
    destruct detach; [|done]. apply dict_map_total, to_numpy_ok.
  - rewrite lookup_fmap, lookup_insert_ne, lookup_insert_eq by done. done.
  - by rewrite lookup_fmap, lookup_insert_eq.
Qed.

(** X4. A run does not depend on the runs before it: the second of two
    runs returns what it would have returned on its own, the buffer it
    leaves holds the outputs of the second pass only, and the two passes
    are the only forward calls made. *)
Theorem run_forgets_earlier_runs
    (self : FeatureExtractor.t) (x1 x2 : tensor_t) (w : World) :
  (FeatureExtractor.run self x2 (FeatureExtractor.run self x1 w).2).1
  = (FeatureExtractor.run self x2 w).1
  /\ outputs (FeatureExtractor.run self x2 (FeatureExtractor.run self x1 w).2).2
     = outputs (FeatureExtractor.run self x2 w).2
  /\ forward_hooks (FeatureExtractor.run self x2 (FeatureExtractor.run self x1 w).2).2
     = forward_hooks w
  /\ forward_calls (FeatureExtractor.run self x2 (FeatureExtractor.run self x1 w).2).2
     = forward_calls w ++ [forward_input self x1; forward_input self x2].
Proof.
  rewrite !run_spec. simpl. split_and!; try done.
  by rewrite <- app_assoc.
Qed.

(** X6. Every value [run] returns comes from a call of a hooked
    sub-module during this pass, and is a detached copy of that call's
    output: with [detach] off a tensor with the output's values on the
    output's device that does not require grad and has no [grad_fn], with
    [detach] on a host array with the output's values. *)
Theorem run_returns_detached_copies_of_module_outputs
    (self : FeatureExtractor.t) (x : tensor_t) (w w' : World)
    (features : gmap string tensor_t) (name : string) (v : tensor_t) :
  FeatureExtractor.run self x w = (Ok features, w') ->
  features !! name = Some v ->
  exists l out,
    (l, out) ∈ (nn.forward (FeatureExtractor._encoder self) (forward_input self x)).1
    /\ v = returned_value self (torch.clone (torch.detach out))
    /\ match v with
       | TorchTensor t =>
           FeatureExtractor.__detach self = false
           /\ torch.array t = torch.array out
           /\ torch.device t = torch.device out
           /\ torch.requires_grad t = false
           /\ torch.grad_fn t = None
       | NdArray a =>
           FeatureExtractor.__detach self = true /\ a = torch.array out
       end.
Proof.
  rewrite run_spec. intros Hrun Hname.
  destruct (nn.forward _ _).2; [done|].
  injection Hrun as Hrun _.
  destruct (FeatureExtractor.features_of _ _ _ _) as [f|] eqn:Hf; [simpl in Hrun|done].
  assert (exists t, f !! name = Some t /\ v = returned_value self t) as (t & Ht & ->).
  { unfold returned_value. destruct (FeatureExtractor.__detach self).
    - rewrite (dict_map_total _ (fun v => NdArray (torch.array v))) in Hrun
        by apply to_numpy_ok.
      injection Hrun as <-. rewrite lookup_fmap in Hname.
      destruct (f !! name) as [t|]; [|done]. injection Hname as <-. by exists t.
    - injection Hrun as <-. rewrite lookup_fmap in Hname.
      destruct (f !! name) as [t|]; [|done]. injection Hname as <-. by exists t. }
  destruct (features_of_values _ _ _ _ _ Hf _ _ Ht) as [Hin|?]; [|done].
  apply captured_detached in Hin as (l & out & Hin & ->).
  exists l, out. split_and!; [done | done |].
  unfold returned_value. by destruct (FeatureExtractor.__detach self).
Qed.

(** X7. A failure inside the forward pass propagates out of [run]
    unchanged: [run] raises the same exception, after one forward call,
    and the buffer keeps what the hooks captured before the failure. *)
Theorem run_propagates_forward_failure
    (self : FeatureExtractor.t) (x : tensor_t) (w : World) (e : exn) :
  (nn.forward (FeatureExtractor._encoder self) (forward_input self x)).2 = Some e ->
  FeatureExtractor.run self x w
  = (Raise e,
     mkWorld (captured (forward_hooks w)
                (nn.forward (FeatureExtractor._encoder self) (forward_input self x)).1)
             (encoder_device w) (forward_hooks w)
             (forward_calls w ++ [forward_input self x])).
Proof.
  intros Hfail. rewrite run_spec. simpl. by rewrite Hfail.
Qed.

End FeatureExtractorMore.

(** ** ImageDataset: index range, construction and the pipeline's cases *)

Section ImageDatasetMore.
Context `{PIL.Core}.
Variable Image_open : string -> option PIL.Image.

Import ImageDataset.

Lemma py_index_out_of_range {A} (l : list A) (i : Z) :
  Z.of_nat (length l) <= i \/ i < - Z.of_nat (length l) ->
  py_index l i = Raise IndexError.
Proof.
  intros Hi. unfold py_index.
  destruct ((0 <=? i) && (i <? Z.of_nat (length l))) eqn:H1.
  { apply andb_true_iff in H1 as [?%Z.leb_le ?%Z.ltb_lt]. lia. }
  destruct ((- Z.of_nat (length l) <=? i) && (i <? 0)) eqn:H2; [|done].
  apply andb_true_iff in H2 as [?%Z.leb_le ?%Z.ltb_lt]. lia.
Qed.


Lemma init_cache_within_paths (images : list string) (arrays : list (np.ndarray float))
    (P : string -> np.ndarray float -> Prop) :
  Forall2 P (take (length arrays) images) arrays ->
  (length arrays <= length images)%nat.
Proof.
  intros Hall. apply Forall2_length in Hall. rewrite length_take in Hall. lia.
Qed.

(** X8. On a dataset built by the constructor, an index at or past the
    number of paths, or below minus that number, raises IndexError and
    leaves the dataset as it was. *)
Theorem getitem_out_of_range_raises
    (images : list string) (labels0 : option (list string))
    (label_dirname : bool) (resize : option (Z * Z)) (shape : string)
    (transform0 : option (np.ndarray float -> Result torch.Tensor * np.ndarray float))
    (scale : float) (rgb_mean : option (list float))
    (preload : bool) (preload_limit : float) (ds : t) (idx : Z) :
  init Image_open images labels0 label_dirname resize shape transform0 scale rgb_mean
       preload preload_limit = Ok ds ->
  Z.of_nat (length images) <= idx \/ idx < - Z.of_nat (length images) ->
  getitem Image_open idx ds = (Raise IndexError, ds).
Proof.
  intros Hinit Hidx.
  apply init_spec in Hinit as (arrays & Hall & Hds & _).
  apply init_cache_within_paths in Hall.
  assert (Hnone : __data ds !! idx = None).
  { rewrite Hds. simpl. apply lookup_map_seqZ_None. lia. }
  rewrite getitem_spec, (after_access_uncached _ _ Hnone), Hnone. f_equal.
  unfold on_demand. replace (data_path ds) with images by (by rewrite Hds).
  by rewrite py_index_out_of_range.
Qed.


(** X10. With [preload=False] the constructor opens no file: whatever
    the paths are and whatever is behind them, it succeeds, caches
    nothing, keeps the paths, and takes the labels as given or derives
    one per path. *)
Theorem init_without_preload_opens_no_file
    (images : list string) (labels0 : option (list string))
    (label_dirname : bool) (resize : option (Z * Z)) (shape : string)
    (transform0 : option (np.ndarray float -> Result torch.Tensor * np.ndarray float))
    (scale : float) (rgb_mean : option (list float)) (preload_limit : float) :
  init Image_open images labels0 label_dirname resize shape transform0 scale rgb_mean
       false preload_limit
  = Ok (mk transform0 shape resize scale rgb_mean ∅ images
           (match labels0 with
            | Some l => l
            | None => derived_label label_dirname <$> images
            end)
           (length images)).
Proof.
  unfold init. by rewrite init_loop_preload_off.
Qed.

(** X11. The constructor does not check [labels] against the paths: with
    fewer labels than paths it still succeeds, and an access to an index
    that has a path but no label raises IndexError after the image has
    been loaded and transformed, so the object is left as the access to
    that index leaves it: as it was when the array is left alone. *)
Theorem getitem_raises_when_label_is_missing
    (images : list string) (l : list string)
    (label_dirname : bool) (resize : option (Z * Z)) (shape : string)
    (transform0 : option (np.ndarray float -> Result torch.Tensor * np.ndarray float))
    (scale : float) (rgb_mean : option (list float))
    (preload : bool) (preload_limit : float) (ds : t)
    (i : nat) (path : string) (arr : np.ndarray float) (tsr : torch.Tensor) :
  init Image_open images (Some l) label_dirname resize shape transform0 scale rgb_mean
       preload preload_limit = Ok ds ->
  images !! i = Some path ->
  (length l <= i)%nat ->
  load_image Image_open ds path = Ok arr ->
  finish ds arr = Ok tsr ->
  getitem Image_open (Z.of_nat i) ds
  = (Raise IndexError, after_access ds (Z.of_nat i))
  /\ (left_in_place ds arr = arr ->
      getitem Image_open (Z.of_nat i) ds = (Raise IndexError, ds)).
Proof.
  intros Hinit Hpath Hshort Harr Htsr.
  apply init_spec in Hinit as (arrays & Hall & Hds & _).
  assert (Hcache : __data ds = map_seqZ 0 arrays) by (by rewrite Hds).
  assert (Hpaths : data_path ds = images) by (by rewrite Hds).
  assert (Hlabels : py_index (labels ds) (Z.of_nat i) = Raise IndexError).
  { rewrite Hds. simpl. apply py_index_out_of_range. lia. }
  assert (Hcached : forall d, __data ds !! Z.of_nat i = Some d -> d = arr).
  { intros d. rewrite Hcache, lookup_map_seqZ_0, Nat2Z.id by lia. intros Hd.
    assert (load_image Image_open ds path = Ok d) as Hd'.
    { eapply (Forall2_lookup_lr _ _ _ i path d Hall); [|done].
      rewrite lookup_take_lt; [done|]. by apply lookup_lt_Some in Hd. }
    rewrite Harr in Hd'. by injection Hd' as <-. }
  assert (Hresult : getitem Image_open (Z.of_nat i) ds
                    = (Raise IndexError, after_access ds (Z.of_nat i))).
  { rewrite getitem_spec. f_equal.
    destruct (__data ds !! Z.of_nat i) as [d|] eqn:Hd.
    - rewrite (Hcached d eq_refl), Htsr. simpl. by rewrite Hlabels.
    - unfold on_demand. rewrite Hpaths, (py_index_nat _ _ _ Hpath). simpl.
      rewrite Harr. simpl. rewrite Htsr. simpl. by rewrite Hlabels. }
  split; [done|].
  intros Hsame. rewrite Hresult. f_equal.
  destruct (__data ds !! Z.of_nat i) as [d|] eqn:Hd.
  - apply (after_access_untouched _ _ arr); [|done]. by rewrite Hd, (Hcached d eq_refl).
  - by apply after_access_uncached.
Qed.


Lemma s2d_letter (ch : ascii) (a : nat) :
  s2d ch = Ok a ->
  (ch = "h"%char /\ a = 0%nat) \/ (ch = "w"%char /\ a = 1%nat)
  \/ (ch = "c"%char /\ a = 2%nat).
Proof.
  unfold s2d.
  destruct (Ascii.eqb_spec ch "h"); [intros [= <-]; auto|].
  destruct (Ascii.eqb_spec ch "w"); [intros [= <-]; auto|].
  destruct (Ascii.eqb_spec ch "c"); [intros [= <-]; auto|].
  done.
Qed.

Lemma substring_0_3 (s : string) (a b c : ascii) :
  String.substring 0 3 s = String a (String b (String c EmptyString)) ->
  exists rest, s = String a (String b (String c rest)).
Proof.
  destruct s as [|a' [|b' [|c' rest]]]; simpl; try discriminate.
  intros [= -> -> ->]. by exists rest.
Qed.

(** X13. The reshape step on a (h, w, c) array, without centring. It
    succeeds exactly when the first three letters of the shape string
    are h, w and c in some order (what follows them is not read). When
    it succeeds, axis k of the result has the length of the axis the
    k-th letter names, the number of elements is unchanged, and the item
    whose index has [y] at the position of 'h', [x] at the position of
    'w' and [ch] at the position of 'c' is sample [(y, x, ch)] of the
    input divided by 255 and multiplied by [scale]. *)
Theorem reshape_accepts_exactly_the_axis_orders
    (self : t) (raw : np.ndarray Byte.byte) (h w c : nat) :
  np.shape raw = [h; w; c] ->
  __rgb_mean self = None ->
  (In (String.substring 0 3 (__shape self)) axis_orders
   <-> exists data, reshape_scale_center self raw = Ok data)
  /\ forall data,
       reshape_scale_center self raw = Ok data ->
       np.shape data = pick [h; w; c] <$> first3 (__shape self)
       /\ np.size data = np.size raw
       /\ forall y x ch,
            np.item data (pick [y; x; ch] <$> first3 (__shape self))
            = (of_uint8 (np.item raw [y; x; ch]) / 255 * __scale self)%float.
Proof.
  intros Hraw Hmean. unfold reshape_scale_center. rewrite Hmean.
  unfold np.transpose, np.ndim, np.size. rewrite Hraw. split; [split|].
  - unfold axis_orders.
    intros [Hs|[Hs|[Hs|[Hs|[Hs|[Hs|[]]]]]]]; symmetry in Hs;
      apply substring_0_3 in Hs as [rest ->]; simpl; by eexists.
  - intros [data Hdata]. unfold first3, str_index in *.
    destruct (__shape self) as [|c0 [|c1 [|c2 rest]]]; simpl in Hdata;
      try discriminate Hdata.
    + by destruct (s2d c0).
    + destruct (s2d c0); simpl in Hdata; [|done]. by destruct (s2d c1).
    + destruct (s2d c0) as [a0|] eqn:H0; simpl in Hdata; [|done].
      destruct (s2d c1) as [a1|] eqn:H1; simpl in Hdata; [|done].
      destruct (s2d c2) as [a2|] eqn:H2; simpl in Hdata; [|done].
      apply s2d_letter in H0 as [[-> ->]|[[-> ->]|[-> ->]]];
        apply s2d_letter in H1 as [[-> ->]|[[-> ->]|[-> ->]]];
        apply s2d_letter in H2 as [[-> ->]|[[-> ->]|[-> ->]]];
        simpl in Hdata; try discriminate Hdata; unfold axis_orders;
        destruct rest; simpl; repeat (first [left; reflexivity | right]).
  - intros data Hdata. unfold first3, str_index in *.
    destruct (__shape self) as [|c0 [|c1 [|c2 rest]]]; simpl in Hdata;
      try discriminate Hdata.
    + by destruct (s2d c0).
    + destruct (s2d c0); simpl in Hdata; [|done]. by destruct (s2d c1).
    + destruct (s2d c0) as [a0|] eqn:H0; simpl in Hdata; [|done].
      destruct (s2d c1) as [a1|] eqn:H1; simpl in Hdata; [|done].
      destruct (s2d c2) as [a2|] eqn:H2; simpl in Hdata; [|done].
      apply s2d_letter in H0 as [[-> ->]|[[-> ->]|[-> ->]]];
        apply s2d_letter in H1 as [[-> ->]|[[-> ->]|[-> ->]]];
        apply s2d_letter in H2 as [[-> ->]|[[-> ->]|[-> ->]]];
        simpl in Hdata; try discriminate Hdata;
        injection Hdata as <-; simpl; (split_and!; [done | f_equal; lia | done]).
Qed.

Lemma py_index_short {A} (l : list A) (i : Z) :
  Z.of_nat (length l) <= i -> py_index l i = Raise IndexError.
Proof. intros Hi. apply py_index_out_of_range. lia. Qed.

Lemma py_index_at {A} (l : list A) (i : Z) (a : A) :
  0 <= i -> l !! Z.to_nat i = Some a -> py_index l i = Ok a.
Proof.
  intros Hi Ha. rewrite <- (Z2Nat.id i) by done. by apply py_index_nat.
Qed.

(** The centring block: it needs three means and three slices, and
    subtracts mean [k] from slice [k] of the first axis. *)
Lemma center_spec (m : list float) (data : np.ndarray float) :
  ((length m < 3)%nat \/ (hd 0%nat (np.shape data) < 3)%nat ->
   center m data = Raise IndexError)
  /\ ((3 <= length m)%nat -> (3 <= hd 0%nat (np.shape data))%nat ->
      exists out,
        center m data = Ok out
        /\ np.shape out = np.shape data
        /\ forall k rest,
             np.item out (k :: rest)
             = if (k <? 3)%nat
               then (np.item data (k :: rest) - nth k m 0)%float
               else np.item data (k :: rest)).
Proof.
  unfold center.
  destruct m as [|m0 m].
  { split; [intros _; by rewrite (py_index_short [] 0)|simpl; lia]. }
  rewrite (py_index_at (m0 :: m) 0 m0) by done. simpl.
  destruct data as [[|d sh] it]; unfold np.isub_slice; simpl.
  { split; [done|lia]. }
  destruct d as [|d]; simpl; [split; [done|lia]|].
  destruct m as [|m1 m].
  { split; [intros _; by rewrite (py_index_short [m0] 1)|simpl; lia]. }
  rewrite (py_index_at (m0 :: m1 :: m) 1 m1) by done. simpl.
  destruct d as [|d]; simpl; [split; [done|lia]|].
  destruct m as [|m2 m].
  { split; [intros _; by rewrite (py_index_short [m0; m1] 2)|simpl; lia]. }
  rewrite (py_index_at (m0 :: m1 :: m2 :: m) 2 m2) by done. simpl.
  destruct d as [|d]; simpl; [split; [done|lia]|].
  split; [simpl; lia|]. intros _ _.
  eexists. split; [reflexivity|]. split; [done|].
  intros [|[|[|k]]] rest; reflexivity.
Qed.

Lemma load_image_centres_last (self : t) (fpath : string) (m : list float) :
  __rgb_mean self = Some m ->
  load_image Image_open self fpath
  = (scaled <-- load_image Image_open (with_rgb_mean None self) fpath ;;
     center m scaled)%py.
Proof.
  intros Hm. rewrite !load_image_stages.
  change (decoded Image_open (with_rgb_mean None self) fpath)
    with (decoded Image_open self fpath).
  destruct (decoded Image_open self fpath) as [raw|]; simpl; [|done].
  unfold reshape_scale_center. simpl. rewrite Hm.
  destruct (str_index _ 0) as [c0|]; simpl; [|done].
  destruct (s2d c0) as [a0|]; simpl; [|done].
  destruct (str_index _ 1) as [c1|]; simpl; [|done].
  destruct (s2d c1) as [a1|]; simpl; [|done].
  destruct (str_index _ 2) as [c2|]; simpl; [|done].
  destruct (s2d c2) as [a2|]; simpl; [|done].
  by destruct (np.transpose _ raw).
Qed.

(** X14. Centring works on the first axis of the reshaped array,
    whatever that axis is. When the pipeline without centring yields
    [scaled]: with fewer than three means, or with a first axis shorter
    than three (for shape 'hwc', an image less than three pixels high),
    the pipeline raises IndexError; otherwise it succeeds, slices 0, 1
    and 2 of the first axis are reduced by the first three means, and
    every other slice and every further mean is left alone. *)
Theorem centering_acts_on_first_axis
    (self : t) (fpath : string) (m : list float) (scaled : np.ndarray float) :
  __rgb_mean self = Some m ->
  load_image Image_open (with_rgb_mean None self) fpath = Ok scaled ->
  ((length m < 3)%nat \/ (hd 0%nat (np.shape scaled) < 3)%nat ->
   load_image Image_open self fpath = Raise IndexError)
  /\ ((3 <= length m)%nat -> (3 <= hd 0%nat (np.shape scaled))%nat ->
      exists data,
        load_image Image_open self fpath = Ok data
        /\ np.shape data = np.shape scaled
        /\ forall k rest,
             np.item data (k :: rest)
             = if (k <? 3)%nat
               then (np.item scaled (k :: rest) - nth k m 0)%float
               else np.item scaled (k :: rest)).
Proof.
  intros Hm Hscaled. rewrite (load_image_centres_last _ _ _ Hm), Hscaled. simpl.
  apply center_spec.
Qed.

Lemma never_over_unlimited (n : Z) :
  int_gt_float n (infinity * 1073741824)%float = false.
Proof. reflexivity. Qed.

(** X16. With [preload=True] and the default, unlimited budget, a
    construction that succeeds has cached every image, each as the
    pipeline loads it; from then on no access below len(dataset) reads a
    file: it returns the same whatever the paths lead to at that time. *)
Theorem preload_without_limit_caches_every_image
    (images : list string) (labels0 : option (list string))
    (label_dirname : bool) (resize : option (Z * Z)) (shape : string)
    (transform0 : option (np.ndarray float -> Result torch.Tensor * np.ndarray float))
    (scale : float) (rgb_mean : option (list float)) (ds : t) :
  init Image_open images labels0 label_dirname resize shape transform0 scale rgb_mean
       true infinity = Ok ds ->
  (forall (i : nat) p, images !! i = Some p ->
     exists d, __data ds !! Z.of_nat i = Some d
               /\ load_image Image_open ds p = Ok d)
  /\ (forall (open' : string -> option PIL.Image) (i : nat),
        (i < length images)%nat ->
        getitem open' (Z.of_nat i) ds = getitem Image_open (Z.of_nat i) ds).
Proof.
  intros Hinit.
  apply init_spec in Hinit as (arrays & Hall & Hds & _ & _ & Hstop).
  assert (Hcache : __data ds = map_seqZ 0 arrays) by (by rewrite Hds).
  assert (Hfull : (length images <= length arrays)%nat).
  { destruct (decide (length images <= length arrays)%nat) as [|Hlt]; [done|].
    destruct (lookup_lt_is_Some_2 images (length arrays) ltac:(lia)) as [p Hp].
    destruct (Hstop eq_refl p Hp) as (d & _ & Hover).
    by rewrite never_over_unlimited in Hover. }
  assert (Hcached : forall (i : nat), (i < length images)%nat ->
             exists d, __data ds !! Z.of_nat i = Some d /\ arrays !! i = Some d).
  { intros i Hi. destruct (lookup_lt_is_Some_2 arrays i ltac:(lia)) as [d Hd].
    exists d. by rewrite Hcache, lookup_map_seqZ_0, Nat2Z.id by lia. }
  split.
  - intros i p Hp. destruct (Hcached i) as (d & Hd & Harr).
    { by apply lookup_lt_Some in Hp. }
    exists d. split; [done|].
    eapply (Forall2_lookup_lr _ _ _ i p d Hall); [|done].
    rewrite lookup_take_lt; [done|]. by apply lookup_lt_Some in Harr.
  - intros open' i Hi. destruct (Hcached i Hi) as (d & Hd & _).
    rewrite !getitem_spec. by rewrite Hd.
Qed.

Lemma init_loop_raises (self : t) (label_dirname : bool) (p : string)
    (after : list string) (e : exn) (before : list string) :
  Forall (fun q => exists d, load_image Image_open self q = Ok d) before ->
  load_image Image_open self p = Raise e ->
  forall (i : Z) (st : loop_state),
    ls_preload st = true ->
    init_loop Image_open self label_dirname infinity i (before ++ p :: after) st
    = Raise e.
Proof.
  intros Hbefore Hp. induction Hbefore as [|q before [d Hq] _ IH];
    intros i st Hpre; simpl; rewrite Hpre.
  - by rewrite Hp.
  - rewrite Hq. simpl. by apply IH.
Qed.

(** X17. With [preload=True] and an unlimited budget, a file the
    pipeline cannot load aborts construction with the pipeline's own
    exception, wherever the file stands in the list (with [preload=False]
    the same list constructs and the failure waits for the access). *)
Theorem preload_aborts_on_unloadable_file
    (before after : list string) (p : string) (labels0 : option (list string))
    (label_dirname : bool) (resize : option (Z * Z)) (shape : string)
    (transform0 : option (np.ndarray float -> Result torch.Tensor * np.ndarray float))
    (scale : float) (rgb_mean : option (list float)) (probe : t) (e : exn) :
  __resize probe = resize ->
  __shape probe = shape ->
  __scale probe = scale ->
  __rgb_mean probe = rgb_mean ->
  Forall (fun q => exists d, load_image Image_open probe q = Ok d) before ->
  load_image Image_open probe p = Raise e ->
  init Image_open (before ++ p :: after) labels0 label_dirname resize shape
       transform0 scale rgb_mean true infinity = Raise e.
Proof.
  intros Hr Hs Hc Hm Hbefore Hp. unfold init.
  rewrite (init_loop_raises _ _ p after e before); [done | | | done].
  - eapply Forall_impl; [exact Hbefore|]. intros q [d Hq]. exists d.
    rewrite <- Hq. by apply load_image_depends_on.
  - rewrite <- Hp. by apply load_image_depends_on.
Qed.

Lemma unit_interval (b : Byte.byte) :
  (0 <=? of_uint8 b / 255 * 1)%float = true
  /\ (of_uint8 b / 255 * 1 <=? 1)%float = true.
Proof. destruct b; vm_compute; done. Qed.

(** X18. For a file that decodes to an image of an 8-bit mode (the
    images [PIL.Image] describes, whose samples are uint8): with
    [scale=1] and no centring, every value the pipeline returns lies in
    [0, 1], for every such file, size and shape string. Files of the
    modes 1, I, I;16 and F, whose samples are not uint8, are not covered:
    the code accepts them too, and their values can exceed 1. *)
Theorem load_image_scales_into_unit_interval
    (self : t) (fpath : string) (img : PIL.Image) (data : np.ndarray float) :
  Image_open fpath = Some img ->
  __scale self = 1%float ->
  __rgb_mean self = None ->
  load_image Image_open self fpath = Ok data ->
  forall idx,
    (0 <=? np.item data idx)%float = true
    /\ (np.item data idx <=? 1)%float = true.
Proof.
  intros _ Hscale Hmean. rewrite load_image_stages.
  destruct (decoded Image_open self fpath) as [raw|]; simpl; [|done].
  unfold reshape_scale_center. rewrite Hscale, Hmean.
  destruct (str_index _ 0) as [c0|]; simpl; [|done].
  destruct (s2d c0) as [a0|]; simpl; [|done].
  destruct (str_index _ 1) as [c1|]; simpl; [|done].
  destruct (s2d c1) as [a1|]; simpl; [|done].
  destruct (str_index _ 2) as [c2|]; simpl; [|done].
  destruct (s2d c2) as [a2|]; simpl; [|done].
  destruct (np.transpose _ raw) as [tr|]; simpl; [|done].
  intros [= <-] idx. simpl. apply unit_interval.
Qed.

End ImageDatasetMore.

(** ** Labels derived from paths *)

Section PathFacts.

Import os_path.

Lemma list_ascii_of_append (a b : string) :
  String.list_ascii_of_string (a +:+ b)
  = String.list_ascii_of_string a ++ String.list_ascii_of_string b.
Proof. induction a as [|c a IH]; simpl; [done|]. by rewrite IH. Qed.

Lemma rsplit_slash_component (f : list ascii) :
  forallb (fun c => negb (Ascii.eqb c slash)) f = true ->
  rsplit_slash f = ([], f).
Proof.
  induction f as [|c f IH]; simpl; [done|].
  intros [Hc Hf]%andb_true_iff. rewrite (IH Hf).
  by destruct (Ascii.eqb c slash).
Qed.

Lemma rsplit_slash_last (pre f : list ascii) :
  forallb (fun c => negb (Ascii.eqb c slash)) f = true ->
  rsplit_slash (pre ++ slash :: f) = (pre ++ [slash], f).
Proof.
  intros Hf. induction pre as [|c pre IH]; simpl.
  - by rewrite (rsplit_slash_component f Hf).
  - rewrite IH. by destruct pre.
Qed.

Lemma lstrip_slash_component (l rest : list ascii) :
  forallb (fun c => negb (Ascii.eqb c slash)) l = true ->
  l <> [] ->
  lstrip_slash (l ++ rest) = l ++ rest.
Proof.
  destruct l as [|c l]; [done|]. simpl.
  intros [Hc _]%andb_true_iff _. by destruct (Ascii.eqb c slash).
Qed.

Lemma forallb_reverse {A} (P : A -> bool) (l : list A) :
  forallb P (reverse l) = forallb P l.
Proof.
  induction l as [|a l IH]; [done|].
  rewrite reverse_cons, forallb_app, IH. simpl.
  rewrite andb_true_r. apply andb_comm.
Qed.

(** Stripping the slash after a directory whose last component is not
    empty gives the directory back. *)
Lemma rstrip_slash_after_component (pre comp : list ascii) :
  forallb (fun c => negb (Ascii.eqb c slash)) comp = true ->
  comp <> [] ->
  rstrip_slash ((pre ++ comp) ++ [slash]) = pre ++ comp.
Proof.
  intros Hcomp Hne. unfold rstrip_slash.
  rewrite reverse_app, reverse_singleton. simpl.
  rewrite ?Ascii.eqb_refl, reverse_app.
  rewrite lstrip_slash_component.
  - by rewrite <- reverse_app, reverse_involutive.
  - by rewrite forallb_reverse.
  - intros Hnil. apply Hne. by rewrite <- (reverse_involutive comp), Hnil.
Qed.

Lemma not_all_slashes (pre comp : list ascii) :
  forallb (fun c => negb (Ascii.eqb c slash)) comp = true ->
  comp <> [] ->
  forallb (Ascii.eqb slash) ((pre ++ comp) ++ [slash]) = false.
Proof.
  intros Hcomp Hne. rewrite !forallb_app.
  destruct comp as [|c comp]; [done|]. simpl in Hcomp.
  apply andb_true_iff in Hcomp as [Hc _].
  cbn [forallb]. rewrite (Ascii.eqb_sym slash c).
  destruct (Ascii.eqb c slash); [done|].
  by rewrite !andb_false_r.
Qed.

(** X15. The label the constructor derives from a path. For a file name
    and a directory name that contain no '/', the directory name not
    empty: the label of [dir/cls/file] is [file], or [cls] with
    [label_dirname] set, whatever [dir] is; the label of [cls/file] is
    [file], or [cls]; and a bare [file] is its own label, with the empty
    string as its directory label. *)
Theorem derived_label_of_path (dir cls file : string) :
  slash_free cls = true ->
  cls <> EmptyString ->
  slash_free file = true ->
  ImageDataset.derived_label false (dir +:+ "/" +:+ cls +:+ "/" +:+ file) = file
  /\ ImageDataset.derived_label true (dir +:+ "/" +:+ cls +:+ "/" +:+ file) = cls
  /\ ImageDataset.derived_label false (cls +:+ "/" +:+ file) = file
  /\ ImageDataset.derived_label true (cls +:+ "/" +:+ file) = cls
  /\ ImageDataset.derived_label false file = file
  /\ ImageDataset.derived_label true file = EmptyString.
Proof.
  unfold slash_free. intros Hcls Hne Hfile.
  set (lc := String.list_ascii_of_string cls) in *.
  set (lf := String.list_ascii_of_string file) in *.
  set (ld := String.list_ascii_of_string dir).
  assert (Hlc : lc <> []).
  { intros Hnil. apply Hne. rewrite <- (String.string_of_list_ascii_of_string cls).
    fold lc. by rewrite Hnil. }
  assert (Hfile_back : String.string_of_list_ascii lf = file)
    by apply String.string_of_list_ascii_of_string.
  assert (Hcls_back : String.string_of_list_ascii lc = cls)
    by apply String.string_of_list_ascii_of_string.
  assert (Hlong : String.list_ascii_of_string (dir +:+ "/" +:+ cls +:+ "/" +:+ file)
                  = ((ld ++ [slash]) ++ lc) ++ slash :: lf).
  { rewrite !list_ascii_of_append. fold ld lc lf. simpl.
    by rewrite <- !app_assoc. }
  assert (Hshort : String.list_ascii_of_string (cls +:+ "/" +:+ file)
                   = ([] ++ lc) ++ slash :: lf).
  { rewrite !list_ascii_of_append. by fold lc lf. }
  unfold ImageDataset.derived_label, basename, dirname.
  rewrite Hlong, Hshort. fold lf.
  rewrite !rsplit_slash_last, (rsplit_slash_component lf) by done. simpl fst. simpl snd.
  rewrite !not_all_slashes, !rstrip_slash_after_component by done.
  rewrite !String.list_ascii_of_string_of_list_ascii.
  pose proof (not_all_slashes [] lc Hcls Hlc) as Hn0.
  pose proof (rstrip_slash_after_component [] lc Hcls Hlc) as Hr0.
  simpl in Hn0, Hr0. rewrite Hn0, Hr0.
  replace ((ld ++ [slash]) ++ lc) with (ld ++ slash :: lc)
    by (by rewrite <- app_assoc).
  rewrite rsplit_slash_last, (rsplit_slash_component lc) by done. simpl.
  by rewrite Hfile_back, Hcls_back.
Qed.

End PathFacts.

(** ** Instances of the further theorems on the sample objects *)

(** X1's theorem on the sample network. *)
Lemma init_hooks_every_resolved_layer_witness :
  FeatureExtractor.init Samples.net ["a"; "b"] (Some Samples.layer_mapping) "cuda:0"
    false Samples.world0
  = (Ok (FeatureExtractor.mk Samples.net ["a"; "b"] (Some Samples.layer_mapping)
           false "cuda:0"),
     mkWorld [] "cuda:0" [0; 1]%nat (forward_calls Samples.world0)).
Proof.
  apply (init_hooks_every_resolved_layer Samples.net ["a"; "b"]
           (Some Samples.layer_mapping) "cuda:0" false [0; 1]%nat Samples.world0).
  repeat constructor; vm_compute; reflexivity.
Defined.

(** X2's theorem on the sample network: 'c' is not in the mapping. *)
Lemma init_fails_at_first_unresolved_layer_witness :
  FeatureExtractor.init Samples.net (["a"] ++ "c" :: ["b"])
    (Some Samples.layer_mapping) "cuda:0" false Samples.world0
  = (Raise KeyError, mkWorld [] "cuda:0" [0]%nat (forward_calls Samples.world0))
  /\ (forall map, Some Samples.layer_mapping = Some map -> map !! "c" = None ->
        KeyError = KeyError).
Proof.
  apply (init_fails_at_first_unresolved_layer Samples.net ["a"] ["b"] "c"
           (Some Samples.layer_mapping) "cuda:0" false [0]%nat KeyError
           Samples.world0).
  - repeat constructor; vm_compute; reflexivity.
  - vm_compute. reflexivity.
Defined.

(** X3's theorem on the sample network. *)
Lemma init_then_run_returns_each_layers_output_witness :
  exists self w1 features w2,
    FeatureExtractor.init Samples.net ["a"; "b"] (Some Samples.layer_mapping) "cpu"
      true Samples.world0 = (Ok self, w1)
    /\ FeatureExtractor.run self Samples.x_array w1 = (Ok features, w2)
    /\ dom features = list_to_set ["a"; "b"]
    /\ forall i name out,
         ["a"; "b"] !! i = Some name ->
         [Samples.out0 (forward_input (Samples.extractor ["a"; "b"] "cpu" true)
                          Samples.x_array);
          Samples.out1 (forward_input (Samples.extractor ["a"; "b"] "cpu" true)
                          Samples.x_array)] !! i = Some out ->
         features !! name
         = Some (returned_value self (torch.clone (torch.detach out))).
Proof.
  apply (init_then_run_returns_each_layers_output Samples.net ["a"; "b"]
           (Some Samples.layer_mapping) "cpu" true [0; 1]%nat
           [Samples.out0 (forward_input (Samples.extractor ["a"; "b"] "cpu" true)
                            Samples.x_array);
            Samples.out1 (forward_input (Samples.extractor ["a"; "b"] "cpu" true)
                            Samples.x_array)]
           Samples.x_array Samples.world0).
  - repeat constructor; vm_compute; reflexivity.
  - refine (bool_decide_unpack (NoDup [0; 1]%nat) _). vm_compute. exact I.
  - reflexivity.
  - reflexivity.
  - reflexivity.
Defined.

(** X5's theorem on the network that skips its second sub-module. *)
Lemma run_raises_on_short_buffer_witness :
  (FeatureExtractor.run
     (FeatureExtractor.mk Samples.net_skipping ["a"; "b"]
        (Some Samples.layer_mapping) true "cpu")
     Samples.x_array (mkWorld [] "cpu" [0; 1]%nat [])).1
  = Raise IndexError.
Proof.
  apply (run_raises_on_short_buffer
           (FeatureExtractor.mk Samples.net_skipping ["a"; "b"]
              (Some Samples.layer_mapping) true "cpu")
           Samples.x_array (mkWorld [] "cpu" [0; 1]%nat [])).
  - reflexivity.
  - vm_compute. lia.
Defined.

(** X6's theorem on the value the sample run returns for 'b'. *)
Lemma run_returns_detached_copies_of_module_outputs_witness :
  exists l out,
    (l, out) ∈ (nn.forward
                  (FeatureExtractor._encoder
                     (Samples.extractor ["a"; "b"] "cuda:0" false))
                  (forward_input (Samples.extractor ["a"; "b"] "cuda:0" false)
                     Samples.x_tensor)).1
    /\ TorchTensor
         (torch.clone (torch.detach
            (Samples.out1 (forward_input (Samples.extractor ["a"; "b"] "cuda:0" false)
                             Samples.x_tensor))))
       = returned_value (Samples.extractor ["a"; "b"] "cuda:0" false)
           (torch.clone (torch.detach out))
    /\ FeatureExtractor.__detach (Samples.extractor ["a"; "b"] "cuda:0" false) = false
    /\ torch.array
         (torch.clone (torch.detach
            (Samples.out1 (forward_input (Samples.extractor ["a"; "b"] "cuda:0" false)
                             Samples.x_tensor))))
       = torch.array out
    /\ torch.device
         (torch.clone (torch.detach
            (Samples.out1 (forward_input (Samples.extractor ["a"; "b"] "cuda:0" false)
                             Samples.x_tensor))))
       = torch.device out
    /\ torch.requires_grad
         (torch.clone (torch.detach
            (Samples.out1 (forward_input (Samples.extractor ["a"; "b"] "cuda:0" false)
                             Samples.x_tensor)))) = false
    /\ torch.grad_fn
         (torch.clone (torch.detach
            (Samples.out1 (forward_input (Samples.extractor ["a"; "b"] "cuda:0" false)
                             Samples.x_tensor)))) = None.
Proof.
  apply (run_returns_detached_copies_of_module_outputs
           (Samples.extractor ["a"; "b"] "cuda:0" false) Samples.x_tensor
           (Samples.after_build ["a"; "b"] "cuda:0" false)
           (FeatureExtractor.run (Samples.extractor ["a"; "b"] "cuda:0" false)
              Samples.x_tensor (Samples.after_build ["a"; "b"] "cuda:0" false)).2
           Samples.features_ab "b"
           (TorchTensor
              (torch.clone (torch.detach
                 (Samples.out1
                    (forward_input (Samples.extractor ["a"; "b"] "cuda:0" false)
                       Samples.x_tensor)))))).
  - rewrite run_spec. vm_compute. reflexivity.
  - vm_compute. reflexivity.
Defined.

(** X7's theorem on the network whose pass fails after its first
    sub-module. *)
Lemma run_propagates_forward_failure_witness :
  FeatureExtractor.run
    (FeatureExtractor.mk Samples.net_failing ["a"; "b"]
       (Some Samples.layer_mapping) true "cpu")
    Samples.x_array (mkWorld [] "cpu" [0; 1]%nat [])
  = (Raise RuntimeError,
     mkWorld
       (captured [0; 1]%nat
          (nn.forward Samples.net_failing
             (forward_input
                (FeatureExtractor.mk Samples.net_failing ["a"; "b"]
                   (Some Samples.layer_mapping) true "cpu") Samples.x_array)).1)
       "cpu" [0; 1]%nat
       ([] ++ [forward_input
                 (FeatureExtractor.mk Samples.net_failing ["a"; "b"]
                    (Some Samples.layer_mapping) true "cpu") Samples.x_array])).
Proof.
  apply (run_propagates_forward_failure
           (FeatureExtractor.mk Samples.net_failing ["a"; "b"]
              (Some Samples.layer_mapping) true "cpu")
           Samples.x_array (mkWorld [] "cpu" [0; 1]%nat []) RuntimeError).
  reflexivity.
Defined.

(** X8's theorem on the preloaded sample dataset: index 3 of 3 paths. *)
Lemma getitem_out_of_range_raises_witness :
  ImageDataset.getitem (H:=Samples.core) Samples.Image_open 3 Samples.preloaded
  = (Raise IndexError, Samples.preloaded).
Proof.
  apply (getitem_out_of_range_raises Samples.Image_open
           Samples.images_large_in_middle None true None "chw" None 1 None
           true Samples.budget_50_bytes Samples.preloaded 3).
  - vm_compute. reflexivity.
  - vm_compute. left. discriminate.
Defined.


(** X11's theorem on the sample dataset with one label for three paths. *)
Lemma getitem_raises_when_label_is_missing_witness :
  ImageDataset.getitem (H:=Samples.core) Samples.Image_open (Z.of_nat 1)
    Samples.one_label
  = (Raise IndexError, ImageDataset.after_access Samples.one_label (Z.of_nat 1))
  /\ (ImageDataset.left_in_place Samples.one_label
        (Samples.loaded Samples.one_label "/data/dogs/pug.png")
      = Samples.loaded Samples.one_label "/data/dogs/pug.png" ->
      ImageDataset.getitem (H:=Samples.core) Samples.Image_open (Z.of_nat 1)
        Samples.one_label
      = (Raise IndexError, Samples.one_label)).
Proof.
  apply (getitem_raises_when_label_is_missing Samples.Image_open
           Samples.images ["tabby"] false None "hwc" None 1 None false infinity
           Samples.one_label 1%nat "/data/dogs/pug.png"
           (Samples.loaded Samples.one_label "/data/dogs/pug.png")
           (torch.FloatTensor (Samples.loaded Samples.one_label "/data/dogs/pug.png"))).
  - vm_compute. reflexivity.
  - reflexivity.
  - simpl. lia.
  - vm_compute. reflexivity.
  - reflexivity.
Defined.


(** X13's theorem on the decoded 2x1 sample file. *)
Lemma reshape_accepts_exactly_the_axis_orders_witness :
  (In (String.substring 0 3 (ImageDataset.__shape (Samples.dataset "cwh" None 1 None)))
      ImageDataset.axis_orders
   <-> exists data,
         ImageDataset.reshape_scale_center (Samples.dataset "cwh" None 1 None)
           (PIL.asarray Samples.tabby) = Ok data)
  /\ forall data,
       ImageDataset.reshape_scale_center (Samples.dataset "cwh" None 1 None)
         (PIL.asarray Samples.tabby) = Ok data ->
       np.shape data
       = ImageDataset.pick [1; 2; 3]%nat
           <$> ImageDataset.first3
                 (ImageDataset.__shape (Samples.dataset "cwh" None 1 None))
       /\ np.size data = np.size (PIL.asarray Samples.tabby)
       /\ forall y x ch,
            np.item data
              (ImageDataset.pick [y; x; ch]
                 <$> ImageDataset.first3
                       (ImageDataset.__shape (Samples.dataset "cwh" None 1 None)))
            = (of_uint8 (np.item (PIL.asarray Samples.tabby) [y; x; ch]) / 255
               * ImageDataset.__scale (Samples.dataset "cwh" None 1 None))%float.
Proof.
  apply (reshape_accepts_exactly_the_axis_orders
           (Samples.dataset "cwh" None 1 None) (PIL.asarray Samples.tabby)
           1%nat 2%nat 3%nat); reflexivity.
Defined.

(** X14's theorem on the 2x1 sample file with shape 'hwc': the first
    axis is the height, 1, and centring raises. *)
Lemma centering_acts_on_first_axis_witness :
  ((length [0.5; 0.25; 0.125]%float < 3)%nat
   \/ (hd 0%nat (np.shape (Samples.loaded (Samples.dataset "hwc" None 1 None)
                             "/data/cats/tabby.png")) < 3)%nat ->
   ImageDataset.load_image (H:=Samples.core) Samples.Image_open
     (Samples.dataset "hwc" None 1 (Some [0.5; 0.25; 0.125]%float))
     "/data/cats/tabby.png" = Raise IndexError)
  /\ ((3 <= length [0.5; 0.25; 0.125]%float)%nat ->
      (3 <= hd 0%nat (np.shape (Samples.loaded (Samples.dataset "hwc" None 1 None)
                                  "/data/cats/tabby.png")))%nat ->
      exists data,
        ImageDataset.load_image (H:=Samples.core) Samples.Image_open
          (Samples.dataset "hwc" None 1 (Some [0.5; 0.25; 0.125]%float))
          "/data/cats/tabby.png" = Ok data
        /\ np.shape data
           = np.shape (Samples.loaded (Samples.dataset "hwc" None 1 None)
                         "/data/cats/tabby.png")
        /\ forall k rest,
             np.item data (k :: rest)
             = if (k <? 3)%nat
               then (np.item (Samples.loaded (Samples.dataset "hwc" None 1 None)
                                "/data/cats/tabby.png") (k :: rest)
                     - nth k [0.5; 0.25; 0.125] 0)%float
               else np.item (Samples.loaded (Samples.dataset "hwc" None 1 None)
                               "/data/cats/tabby.png") (k :: rest)).
Proof.
  apply (centering_acts_on_first_axis Samples.Image_open
           (Samples.dataset "hwc" None 1 (Some [0.5; 0.25; 0.125]%float))
           "/data/cats/tabby.png" [0.5; 0.25; 0.125]%float
           (Samples.loaded (Samples.dataset "hwc" None 1 None) "/data/cats/tabby.png"));
    reflexivity.
Defined.

(** X15's theorem on the path of the sample file. *)
Lemma derived_label_of_path_witness :
  ImageDataset.derived_label false ("/data" +:+ "/" +:+ "cats" +:+ "/" +:+ "tabby.png")
  = "tabby.png"
  /\ ImageDataset.derived_label true ("/data" +:+ "/" +:+ "cats" +:+ "/" +:+ "tabby.png")
     = "cats"
  /\ ImageDataset.derived_label false ("cats" +:+ "/" +:+ "tabby.png") = "tabby.png"
  /\ ImageDataset.derived_label true ("cats" +:+ "/" +:+ "tabby.png") = "cats"
  /\ ImageDataset.derived_label false "tabby.png" = "tabby.png"
  /\ ImageDataset.derived_label true "tabby.png" = EmptyString.
Proof.
  apply (derived_label_of_path "/data" "cats" "tabby.png");
    [reflexivity | discriminate | reflexivity].
Defined.

(** X16's theorem on the sample files preloaded without a limit. *)
Lemma preload_without_limit_caches_every_image_witness :
  (forall (i : nat) p, Samples.images !! i = Some p ->
     exists d, ImageDataset.__data Samples.preloaded_all !! Z.of_nat i = Some d
               /\ ImageDataset.load_image (H:=Samples.core) Samples.Image_open
                    Samples.preloaded_all p = Ok d)
  /\ (forall (open' : string -> option PIL.Image) (i : nat),
        (i < length Samples.images)%nat ->
        ImageDataset.getitem (H:=Samples.core) open' (Z.of_nat i) Samples.preloaded_all
        = ImageDataset.getitem (H:=Samples.core) Samples.Image_open (Z.of_nat i)
            Samples.preloaded_all).
Proof.
  apply (preload_without_limit_caches_every_image Samples.Image_open
           Samples.images None false None "hwc" None 1 None Samples.preloaded_all).
  vm_compute. reflexivity.
Defined.

(** X17's theorem: a missing file after a loadable one. *)
Lemma preload_aborts_on_unloadable_file_witness :
  ImageDataset.init (H:=Samples.core) Samples.Image_open
    (["/data/dogs/pug.png"] ++ "/data/none.png" :: ["/data/ghost.png"])
    None false None "hwc" None 1 None true infinity
  = Raise OSError.
Proof.
  apply (preload_aborts_on_unloadable_file Samples.Image_open
           ["/data/dogs/pug.png"] ["/data/ghost.png"] "/data/none.png"
           None false None "hwc" None 1%float None
           (Samples.dataset "hwc" None 1 None) OSError);
    try reflexivity.
  repeat constructor. eexists. vm_compute. reflexivity.
Defined.

(** X18's theorem on the sample RGB file, an image of an 8-bit mode. *)
Lemma load_image_scales_into_unit_interval_witness :
  (0 <=? np.item (Samples.loaded (Samples.dataset "chw" None 1 None)
                    "/data/cats/tabby.png") [2; 0; 1]%nat)%float = true
  /\ (np.item (Samples.loaded (Samples.dataset "chw" None 1 None)
                 "/data/cats/tabby.png") [2; 0; 1]%nat <=? 1)%float = true.
Proof.
  apply (fun Ho Hs Hm Hl =>
           load_image_scales_into_unit_interval (H:=Samples.core) Samples.Image_open
             (Samples.dataset "chw" None 1 None) "/data/cats/tabby.png" Samples.tabby
             (Samples.loaded (Samples.dataset "chw" None 1 None) "/data/cats/tabby.png")
             Ho Hs Hm Hl [2; 0; 1]%nat);
    reflexivity.
Defined.

(** X19's theorem on the sample network, with the names requested in the
    opposite order to the calls. *)
Lemma run_binds_outputs_in_call_order_witness :
  exists self w1 features w2,
    FeatureExtractor.init Samples.net ["b"; "a"] (Some Samples.layer_mapping) "cpu"
      false Samples.world0 = (Ok self, w1)
    /\ FeatureExtractor.run self Samples.x_array w1 = (Ok features, w2)
    /\ features !! "b"
       = Some (returned_value self
                 (torch.clone (torch.detach
                    (Samples.out0
                       (forward_input (Samples.extractor ["b"; "a"] "cpu" false)
                          Samples.x_array)))))
    /\ features !! "a"
       = Some (returned_value self
                 (torch.clone (torch.detach
                    (Samples.out1
                       (forward_input (Samples.extractor ["b"; "a"] "cpu" false)
                          Samples.x_array))))).
Proof.
  apply (run_binds_outputs_in_call_order Samples.net "b" "a"
           (Some Samples.layer_mapping) "cpu" false 1%nat 0%nat
           (Samples.out1 (forward_input (Samples.extractor ["b"; "a"] "cpu" false)
                            Samples.x_array))
           (Samples.out0 (forward_input (Samples.extractor ["b"; "a"] "cpu" false)
                            Samples.x_array))
           Samples.x_array Samples.world0).
  - vm_compute. reflexivity.
  - vm_compute. reflexivity.
  - discriminate.
  - reflexivity.
  - reflexivity.
Defined.
